(** * Wallet discovery store and connection handlers of WalletProviders.tsx

    A shallow embedding of [src/WalletProviders.tsx]: the module-level
    provider list with its EIP-6963 announcement listener ([store]), and the
    asynchronous RPC handlers of the [WalletProviders] component
    ([handleConnect], the polling interval, [signMessages]); then what the
    component renders, the page in use, and the effect of [src/App.tsx] that
    starts the Ledger provider. *)

From Stdlib Require Import List String ZArith Bool Arith Lia.
Import ListNotations.
Local Open Scope string_scope.
Local Open Scope list_scope.
Set Warnings "-register-all".

(** ** Run-time values

    The values the code handles without a static type ([Promise<unknown>],
    rejection reasons, [console] arguments).  Numbers are the integral ones
    plus [NaN]. *)

Inductive JsValue : Type :=
| VUndefined
| VNull
| VBool (b : bool)
| VNum (z : Z)
| VNaN
| VStr (s : string)
| VArr (items : list JsValue)
| VObj (fields : list (string * JsValue)).

(** [!!v] *)
Definition truthy (v : JsValue) : bool :=
  match v with
  | VUndefined | VNull | VNaN => false
  | VBool b => b
  | VNum z => negb (Z.eqb z 0)
  | VStr s => negb (String.eqb s "")
  | VArr _ | VObj _ => true
  end.

(** [typeof v] *)
Definition typeof (v : JsValue) : string :=
  match v with
  | VUndefined => "undefined"
  | VBool _ => "boolean"
  | VNum _ | VNaN => "number"
  | VStr _ => "string"
  | VNull | VArr _ | VObj _ => "object"
  end.

Fixpoint get_field (k : string) (fields : list (string * JsValue)) : JsValue :=
  match fields with
  | [] => VUndefined
  | (k', v) :: rest => if String.eqb k' k then v else get_field k rest
  end.

(** [v[0]] for a [v] that is neither [undefined] nor [null]. *)
Definition index0 (v : JsValue) : JsValue :=
  match v with
  | VArr items => nth 0 items VUndefined
  | VStr (String c _) => VStr (String c EmptyString)
  | VObj fields => get_field "0" fields
  | _ => VUndefined
  end.

(** ** EthereumProviderTypes *)

Record EIP6963ProviderInfo : Type := {
  walletId : string;
  uuid : string;
  name : string;
  icon : string
}.

Record Request : Type := {
  method : string;
  params : option (list JsValue)
}.

(** How a promise settles. *)
Inductive Settled (A : Type) : Type :=
| Fulfilled (a : A)
| Rejected (reason : JsValue).
Arguments Fulfilled {A} a.
Arguments Rejected {A} reason.

(** An EIP-1193 provider is an object owned by a wallet extension.  [handle]
    is the identity of the object; [request] is what the wallet answers, given
    the number of RPC calls the page has issued before this one (the legacy
    [sendAsync] and [send] members are never called by the page). *)
Record EIP1193Provider : Type := {
  handle : nat;
  isStatus : option bool;
  host : option string;
  path : option string;
  request : nat -> Request -> Settled JsValue
}.

Record EIP6963ProviderDetail : Type := {
  info : EIP6963ProviderInfo;
  provider : EIP1193Provider
}.

Record EIP6963AnnounceProviderEvent : Type := {
  detail : EIP6963ProviderDetail
}.

(** ** store *)

Module Store.

(** What the store does to the outside, in order: the
    [eip6963:requestProvider] broadcast, and calls of a subscriber's
    callback (a callback is named by a number; it is a function of the
    caller and touches neither the provider list nor the listeners). *)
Inductive Effect : Type :=
| RequestProvider
| Notified (cb : nat).

(** One [onAnnouncement] closure registered on [window] for
    [eip6963:announceProvider]: [lid] is the identity of the closure,
    [callback] the subscriber callback it has captured. *)
Record Listener : Type := {
  lid : nat;
  callback : nat
}.

Record Page : Type := {
  providers : list EIP6963ProviderDetail;   (* let providers = [] *)
  listeners : list Listener;                (* in registration order *)
  fresh : nat;                              (* identity of the next closure *)
  trace : list Effect
}.

(** The page at module load. *)
Definition init : Page :=
  {| providers := []; listeners := []; fresh := 0; trace := [] |}.

Definition event_uuid (event : EIP6963AnnounceProviderEvent) : string :=
  uuid (info (detail event)).

(** [providers.some((p) => p.info.uuid === event.detail.info.uuid)] *)
Definition announced (event : EIP6963AnnounceProviderEvent)
  (ps : list EIP6963ProviderDetail) : bool :=
  existsb (fun p => String.eqb (uuid (info p)) (event_uuid event)) ps.

Definition onAnnouncement (cb : nat) (event : EIP6963AnnounceProviderEvent)
  (st : Page) : Page :=
  if announced event (providers st) then st
  else {| providers := providers st ++ [detail event];
          listeners := listeners st;
          fresh := fresh st;
          trace := trace st ++ [Notified cb] |}.

(** [window.dispatchEvent] of one announcement: every registered listener
    runs, in registration order. *)
Definition deliver (event : EIP6963AnnounceProviderEvent)
  (ls : list Listener) (st : Page) : Page :=
  fold_left (fun s l => onAnnouncement (callback l) event s) ls st.

Definition dispatch (event : EIP6963AnnounceProviderEvent) (st : Page) : Page :=
  deliver event (listeners st) st.

Definition dispatch_all (events : list EIP6963AnnounceProviderEvent)
  (st : Page) : Page :=
  fold_left (fun s e => dispatch e s) events st.

(** [window.addEventListener] with a closure made by this call. *)
Definition addEventListener (cb : nat) (st : Page) : Page * nat :=
  ({| providers := providers st;
      listeners := listeners st ++ [{| lid := fresh st; callback := cb |}];
      fresh := S (fresh st);
      trace := trace st |}, fresh st).

(** [window.dispatchEvent(new Event("eip6963:requestProvider"))]: the
    broadcast goes out, and the wallets that hear it announce themselves
    before the call returns ([answer], chosen by the wallets). *)
Definition requestProvider (answer : list EIP6963AnnounceProviderEvent)
  (st : Page) : Page :=
  dispatch_all answer
    {| providers := providers st;
       listeners := listeners st;
       fresh := fresh st;
       trace := trace st ++ [RequestProvider] |}.

(** [window.removeEventListener] of the closure [id]. *)
Definition removeEventListener (id : nat) (st : Page) : Page :=
  {| providers := providers st;
     listeners := filter (fun l => negb (Nat.eqb (lid l) id)) (listeners st);
     fresh := fresh st;
     trace := trace st |}.

(** [store.value()] *)
Definition value (st : Page) : list EIP6963ProviderDetail := providers st.

(** [store.subscribe(callback)]; the result carries the closure that the
    returned unsubscribe function removes. *)
Definition subscribe (cb : nat) (answer : list EIP6963AnnounceProviderEvent)
  (st : Page) : Page * nat :=
  let '(st1, id) := addEventListener cb st in
  (requestProvider answer st1, id).

Definition unsubscribe (id : nat) (st : Page) : Page :=
  removeEventListener id st.

(** A history of the page. *)
Inductive Action : Type :=
| Subscribe (cb : nat) (answer : list EIP6963AnnounceProviderEvent)
| Unsubscribe (id : nat)
| Announce (event : EIP6963AnnounceProviderEvent).

Definition step (st : Page) (a : Action) : Page :=
  match a with
  | Subscribe cb answer => fst (subscribe cb answer st)
  | Unsubscribe id => unsubscribe id st
  | Announce event => dispatch event st
  end.

Definition run (acts : list Action) (st : Page) : Page :=
  fold_left step acts st.

Definition uuids (ps : list EIP6963ProviderDetail) : list string :=
  map (fun p => uuid (info p)) ps.

Definition count_requests (t : list Effect) : nat :=
  List.length (filter (fun e => match e with RequestProvider => true | _ => false end) t).


Definition count_notifications (t : list Effect) : nat :=
  List.length (filter (fun e => match e with Notified _ => true | _ => false end) t).

(** The collection the specification describes: of the announced details,
    the first one of each uuid, in the order of announcement. *)
Fixpoint first_seen (ds : list EIP6963ProviderDetail) : list EIP6963ProviderDetail :=
  match ds with
  | [] => []
  | d :: rest =>
      d :: filter (fun x => negb (String.eqb (uuid (info x)) (uuid (info d))))
             (first_seen rest)
  end.

End Store.

(** ** The WalletProviders component *)

Module Component.

Inductive LogEntry : Type :=
| ConsoleError (reason : JsValue)
| ConsoleLog (label style : string) (payload : JsValue).

(** One call of [provider.request]. *)
Record Rpc : Type := {
  target : nat;
  sent : Request
}.

Record World : Type := {
  selectedWallet : option EIP6963ProviderDetail;   (* useState() *)
  userAccount : JsValue;                           (* useState("") *)
  console : list LogEntry;
  calls : list Rpc                                 (* oldest first *)
}.

Definition mounted : World :=
  {| selectedWallet := None; userAccount := VStr ""; console := []; calls := [] |}.

(** An async function: it runs on the world and its promise settles. *)
Definition Async (A : Type) : Type := World -> Settled A * World.

Definition ret {A : Type} (a : A) : Async A := fun w => (Fulfilled a, w).

(** [await m] followed by [k]; a rejection of [m] rejects the whole. *)
Definition bind {A B : Type} (m : Async A) (k : A -> Async B) : Async B :=
  fun w =>
    match m w with
    | (Fulfilled a, w') => k a w'
    | (Rejected reason, w') => (Rejected reason, w')
    end.

Notation "x <- m ;; k" := (bind m (fun x => k))
  (at level 61, m at next level, right associativity).
Notation "m ;;; k" := (bind m (fun _ => k))
  (at level 61, right associativity).

(** [provider.request(req)] *)
Definition rpc (p : EIP1193Provider) (req : Request) : Async JsValue :=
  fun w =>
    (request p (List.length (calls w)) req,
     {| selectedWallet := selectedWallet w;
        userAccount := userAccount w;
        console := console w;
        calls := calls w ++ [{| target := handle p; sent := req |}] |}).

Definition console_error (reason : JsValue) : Async JsValue :=
  fun w =>
    (Fulfilled VUndefined,
     {| selectedWallet := selectedWallet w;
        userAccount := userAccount w;
        console := console w ++ [ConsoleError reason];
        calls := calls w |}).

Definition console_log (label style : string) (payload : JsValue) : Async unit :=
  fun w =>
    (Fulfilled tt,
     {| selectedWallet := selectedWallet w;
        userAccount := userAccount w;
        console := console w ++ [ConsoleLog label style payload];
        calls := calls w |}).

(** [m.catch(handler)] *)
Definition catch (m : Async JsValue) (handler : JsValue -> Async JsValue)
  : Async JsValue :=
  fun w =>
    match m w with
    | (Fulfilled v, w') => (Fulfilled v, w')
    | (Rejected reason, w') => handler reason w'
    end.

Definition setSelectedWallet (d : EIP6963ProviderDetail) : Async unit :=
  fun w =>
    (Fulfilled tt,
     {| selectedWallet := Some d;
        userAccount := userAccount w;
        console := console w;
        calls := calls w |}).

Definition setUserAccount (a : JsValue) : Async unit :=
  fun w =>
    (Fulfilled tt,
     {| selectedWallet := selectedWallet w;
        userAccount := a;
        console := console w;
        calls := calls w |}).

(** [!!selectedWallet && !!userAccount] *)
Definition isConnected (w : World) : bool :=
  match selectedWallet w with
  | Some _ => truthy (userAccount w)
  | None => false
  end.

Definition handleConnect (providerWithInfo : EIP6963ProviderDetail) : Async unit :=
  accounts <- catch (rpc (provider providerWithInfo)
                       {| method := "eth_requestAccounts"; params := None |})
                    console_error ;;
  if truthy accounts && truthy (index0 accounts) then
    setSelectedWallet providerWithInfo ;;;
    setUserAccount (index0 accounts)
  else ret tt.

(** The function given to [setInterval]; [wallet] and [account] are the
    [selectedWallet] and [userAccount] of the render that ran the effect. *)
Definition intervalCallback (wallet : EIP6963ProviderDetail) (account : JsValue)
  : Async unit :=
  chainId <- rpc (provider wallet) {| method := "eth_chainId"; params := None |} ;;
  capabilities <- rpc (provider wallet)
                    {| method := "wallet_getCapabilities";
                       params := Some [account] |} ;;
  console_log "%c[Wallet Debug] Effect run:"
    "color: white; background: #0070f3; font-weight: bold; padding: 2px 6px; border-radius: 3px;"
    (VObj [("chainId", chainId); ("capabilities", capabilities)]).

(** The effect: the function that the timer calls every 5000 ms, when there
    is one. *)
Definition pollingEffect (w : World) : option (Async unit) :=
  match selectedWallet w with
  | Some wallet =>
      if truthy (userAccount w) then Some (intervalCallback wallet (userAccount w))
      else None
  | None => None
  end.

Definition field (fname ftype : string) : JsValue :=
  VObj [("name", VStr fname); ("type", VStr ftype)].

Definition typedData : JsValue :=
  VObj [
    ("types", VObj [
      ("EIP712Domain", VArr [
         field "name" "string";
         field "version" "string";
         field "chainId" "uint256";
         field "verifyingContract" "address" ]);
      ("Person", VArr [
         field "name" "string";
         field "wallet" "address" ]);
      ("Mail", VArr [
         field "from" "Person";
         field "to" "Person";
         field "contents" "string" ]) ]);
    ("primaryType", VStr "Mail");
    ("domain", VObj [
      ("name", VStr "Ether Mail");
      ("version", VStr "1");
      ("chainId", VNum 1);
      ("verifyingContract", VStr "0xCcCCccccCCCCcCCCCCCcCcCccCcCCCcCcccccccC") ]);
    ("message", VObj [
      ("from", VObj [
         ("name", VStr "Cow");
         ("wallet", VStr "0xCD2a3d9F938E13CD947Ec05AbC7FE734Df8DD826") ]);
      ("to", VObj [
         ("name", VStr "Bob");
         ("wallet", VStr "0xbBbBBBBbbBBBbbbBbbBbbbbBBbBbbbbBbBbbBBbB") ]);
      ("contents", VStr "Hello, Bob!") ]) ].

Section Signing.

(** [JSON.stringify] of the JavaScript runtime. *)
Variable JSON_stringify : JsValue -> string.

Definition produceTypedDataPayload (address : JsValue) : Request :=
  {| method := "eth_signTypedData_v4";
     params := Some [address; VStr (JSON_stringify typedData)] |}.

Definition signMessages : Async unit :=
  fun w =>
    match selectedWallet w with
    | Some wallet =>
        if truthy (userAccount w) then
          (signature1 <- catch (rpc (provider wallet)
                                  (produceTypedDataPayload (userAccount w)))
                               console_error ;;
           signature2 <- catch (rpc (provider wallet)
                                  (produceTypedDataPayload (userAccount w)))
                               console_error ;;
           console_log "%c[Wallet Debug] Signatures:"
             "color: white; background: #e67e22; font-weight: bold; padding: 2px 6px; border-radius: 3px;"
             (VObj [("signature1", signature1);
                    ("signature2", signature2);
                    ("typeofSignature1", VStr (typeof signature1));
                    ("typeofSignature2", VStr (typeof signature2))])) w
        else (Fulfilled tt, w)
    | None => (Fulfilled tt, w)
    end.

End Signing.

(** The requests of [handleConnect] and of the interval function. *)
Definition accountsRequest : Request :=
  {| method := "eth_requestAccounts"; params := None |}.

Definition chainIdRequest : Request :=
  {| method := "eth_chainId"; params := None |}.

Definition capabilitiesRequest (account : JsValue) : Request :=
  {| method := "wallet_getCapabilities"; params := Some [account] |}.

End Component.

(** ** What the component renders *)

Module View.

Import Component.

(** The functions given to [onClick]. *)
Inductive Handler : Type :=
| Connect (providerWithInfo : EIP6963ProviderDetail)   (* () => handleConnect(provider) *)
| Sign.                                                (* signMessages *)

(** A JSX tree: text, an expression in braces, an array of elements, or an
    element with its key, its other props, its click handler and its
    children. *)
Inductive Node : Type :=
| Text (s : string)
| Expr (v : JsValue)
| Nodes (items : list Node)
| Element (tag : string) (key : option string)
          (props : list (string * JsValue)) (onClick : option Handler)
          (children : list Node).

Definition walletIcon (d : EIP6963ProviderDetail) : Node :=
  Element "img" None
    [("src", VStr (icon (info d))); ("alt", VStr (name (info d)));
     ("width", VNum 24); ("height", VNum 24)]
    None [].

Definition walletButton (provider : EIP6963ProviderDetail) : Node :=
  Element "button" (Some (uuid (info provider))) [] (Some (Connect provider))
    [ walletIcon provider;
      Element "div" None [] None [Text (name (info provider))] ].

(** [providers.length > 0 ? providers.map(...) : <div>...</div>] *)
Definition walletList (providers : list EIP6963ProviderDetail) : Node :=
  if Nat.ltb 0 (List.length providers) then Nodes (map walletButton providers)
  else Element "div" None [] None [Text "There are no announced providers."].

(** [isConnected && (<div>...</div>)] *)
Definition selectedPanel (w : World) : Node :=
  match selectedWallet w with
  | Some selected =>
      if truthy (userAccount w) then
        Element "div" None [] None
          [ walletIcon selected;
            Element "div" None [] None [Text (name (info selected))];
            Element "div" None [] None [Text "("; Expr (userAccount w); Text ")"] ]
      else Expr (VBool false)
  | None => Expr (VBool false)
  end.

Definition render (providers : list EIP6963ProviderDetail) (w : World) : Node :=
  Element "div" None
    [("style", VObj [("width", VStr "100%"); ("display", VStr "flex");
                     ("flexDirection", VStr "column");
                     ("justifyContent", VStr "center");
                     ("alignItems", VStr "center")])]
    None
    [ Element "h2" None [] None [Text "Wallets Detected:"];
      Element "div" None
        [("style", VObj [("display", VStr "flex"); ("alignItems", VStr "center");
                         ("gap", VNum 8)])]
        None
        [walletList providers];
      Element "hr" None [] None [];
      Element "div" None
        [("style", VObj [("display", VStr "flex"); ("gap", VNum 24);
                         ("paddingBottom", VNum 24)])]
        None
        [ Element "h2" None [] None
            [Text (if isConnected w then "Wallet Selected" else "No Wallet Selected")];
          selectedPanel w ];
      if isConnected w
      then Element "button" None [] (Some Sign) [Text "Sign Messages"]
      else Expr (VBool false) ].

(** The click handlers of a tree, in document order. *)
Fixpoint handlers (n : Node) : list Handler :=
  match n with
  | Text _ | Expr _ => []
  | Nodes items => flat_map handlers items
  | Element _ _ _ onClick children =>
      match onClick with Some h => [h] | None => [] end
      ++ flat_map handlers children
  end.

(** The keys of the elements of an array. *)
Definition sibling_keys (n : Node) : list (option string) :=
  match n with
  | Nodes items =>
      map (fun item => match item with
                       | Element _ key _ _ _ => key
                       | _ => None
                       end) items
  | _ => []
  end.

(** Whether React can render a value given as a child: strings and numbers
    are text, [undefined], [null] and booleans are nothing, an array is its
    items; for an object React throws. *)
Fixpoint renderable (v : JsValue) : bool :=
  match v with
  | VObj _ => false
  | VArr items => forallb renderable items
  | _ => true
  end.

(** Whether React can render a tree; when it cannot, the render throws and
    React unmounts the whole tree. *)
Fixpoint mounts (n : Node) : bool :=
  match n with
  | Text _ => true
  | Expr v => renderable v
  | Nodes items => forallb mounts items
  | Element _ _ _ _ children => forallb mounts children
  end.

End View.

(** ** The page in use

    The component mounted and subscribed to the store (its callback is 0),
    then wallets announcing themselves, the user clicking buttons of the
    current render, and the timer of the polling effect firing.  A render
    that throws unmounts the tree: no button and no interval are left, and
    the listener of the component is removed from the store. *)

Module Session.

Import Store Component View.

Inductive Event : Type :=
| Announced (event : EIP6963AnnounceProviderEvent)
| Click (n : nat)                (* the n-th button, in document order *)
| Tick.                          (* the 5000 ms timer fires *)

Definition State : Type := (Page * World)%type.

Definition started (answer : list EIP6963AnnounceProviderEvent) : State :=
  (fst (subscribe 0 answer init), mounted).

(** The closure that [started] has registered. *)
Definition subscription : nat := snd (subscribe 0 [] init).

(** The tree is mounted: React can render what the component returns for
    the state it holds. *)
Definition alive (s : State) : bool :=
  mounts (render (value (fst s)) (snd s)).

(** React renders after a handler has run; a render that throws unmounts the
    tree, and the unmount unsubscribes from the store. *)
Definition commit (s : State) : State :=
  if alive s then s else (unsubscribe subscription (fst s), snd s).

Section WithRuntime.

Variable JSON_stringify : JsValue -> string.

Definition click (h : Handler) : Async unit :=
  match h with
  | Connect providerWithInfo => handleConnect providerWithInfo
  | Sign => signMessages JSON_stringify
  end.

Definition step (s : State) (e : Event) : State :=
  let '(page, w) := s in
  match e with
  | Announced event => (dispatch event page, w)
  | Click n =>
      if alive (page, w) then
        match nth_error (handlers (render (value page) w)) n with
        | Some h => commit (page, snd (click h w))
        | None => (page, w)
        end
      else (page, w)
  | Tick =>
      if alive (page, w) then
        match pollingEffect w with
        | Some tick => (page, snd (tick w))
        | None => (page, w)
        end
      else (page, w)
  end.

Definition run (events : list Event) (s : State) : State :=
  fold_left step events s.

End WithRuntime.

End Session.

(** ** App.tsx: the effect that starts the Ledger provider *)

Module Bootstrap.

Record Stub : Type := {
  base : bool;
  account : bool;
  device : bool;
  web3Provider : bool;
  dAppConfig : bool
}.

Record LedgerConfig : Type := {
  devConfig_stub : Stub;
  dAppIdentifier : string;
  loggerLevel : string;
  dmkConfig : JsValue
}.

(** The argument of [initializeLedgerProvider]. *)
Definition config : LedgerConfig :=
  {| devConfig_stub := {| base := false; account := false; device := false;
                          web3Provider := false; dAppConfig := false |};
     dAppIdentifier := "velora";
     loggerLevel := "info";
     dmkConfig := VUndefined |}.

(** What the two dynamic imports give: the style sheet, and the module with
    its [initializeLedgerProvider], which returns a cleanup function (named
    by a number) or throws. *)
Record Library : Type := {
  styles : Settled unit;
  initializeLedgerProvider : Settled (LedgerConfig -> Settled nat)
}.

(** One run of the effect. *)
Record Effect : Type := {
  cleanup : option nat;               (* let cleanup *)
  initialized : list LedgerConfig;    (* calls of initializeLedgerProvider *)
  cleaned : list nat;                 (* cleanup functions called *)
  unhandled : list JsValue            (* rejections nobody handles *)
}.

(** The effect has run: [initializeProvider()] is waiting for its imports. *)
Definition mounted : Effect :=
  {| cleanup := None; initialized := []; cleaned := []; unhandled := [] |}.

(** [initializeProvider()] once the imports settle: the promise of the
    cleanup function, and the configurations the library was started with. *)
Definition initializeProvider (lib : Library) : Settled nat * list LedgerConfig :=
  match styles lib with
  | Rejected reason => (Rejected reason, [])
  | Fulfilled _ =>
      match initializeLedgerProvider lib with
      | Rejected reason => (Rejected reason, [])
      | Fulfilled init => (init config, [config])
      end
  end.

(** The imports settle and [.then((cleanupFn) => { cleanup = cleanupFn })]
    runs. *)
Definition settle (lib : Library) (e : Effect) : Effect :=
  match initializeProvider lib with
  | (Fulfilled cleanupFn, started) =>
      {| cleanup := Some cleanupFn;
         initialized := initialized e ++ started;
         cleaned := cleaned e;
         unhandled := unhandled e |}
  | (Rejected reason, started) =>
      {| cleanup := cleanup e;
         initialized := initialized e ++ started;
         cleaned := cleaned e;
         unhandled := unhandled e ++ [reason] |}
  end.

(** The function the effect returns: [cleanup?.()]. *)
Definition unmount (e : Effect) : Effect :=
  match cleanup e with
  | Some f =>
      {| cleanup := cleanup e;
         initialized := initialized e;
         cleaned := cleaned e ++ [f];
         unhandled := unhandled e |}
  | None => e
  end.

End Bootstrap.

(** ** Sample wallets and announcements *)

Module Samples.

Definition accepting : EIP1193Provider :=
  {| handle := 1; isStatus := None; host := None; path := None;
     request := fun _ req =>
       if String.eqb (method req) "eth_requestAccounts"
       then Fulfilled (VArr [VStr "0xCD2a3d9F938E13CD947Ec05AbC7FE734Df8DD826"])
       else Fulfilled (VStr "0x1") |}.

Definition refusing : EIP1193Provider :=
  {| handle := 2; isStatus := None; host := None; path := None;
     request := fun _ _ => Rejected (VStr "User rejected the request.") |}.

(** A wallet without [wallet_getCapabilities]. *)
Definition legacy : EIP1193Provider :=
  {| handle := 4; isStatus := None; host := None; path := None;
     request := fun _ req =>
       if String.eqb (method req) "eth_requestAccounts"
       then Fulfilled (VArr [VStr "0xbBbBBBBbbBBBbbbBbbBbbbbBBbBbbbbBbBbbBBbB"])
       else if String.eqb (method req) "eth_chainId"
       then Fulfilled (VStr "0x1")
       else Rejected (VStr "The requested method is not supported.") |}.

Definition locked : EIP1193Provider :=
  {| handle := 3; isStatus := None; host := None; path := None;
     request := fun _ _ => Fulfilled (VArr []) |}.

Definition walletA : EIP6963ProviderDetail :=
  {| info := {| walletId := "com.ledger"; uuid := "1"; name := "Ledger";
                icon := "ledger.svg" |};
     provider := accepting |}.

(** The uuid of [walletA] announced with other display info and another
    provider object. *)
Definition walletA_again : EIP6963ProviderDetail :=
  {| info := {| walletId := "io.metamask"; uuid := "1"; name := "MetaMask";
                icon := "fox.svg" |};
     provider := refusing |}.

Definition walletB : EIP6963ProviderDetail :=
  {| info := {| walletId := "io.metamask"; uuid := "2"; name := "MetaMask";
                icon := "fox.svg" |};
     provider := refusing |}.

(** The display info and provider of [walletA] under another uuid. *)
Definition walletA_twin : EIP6963ProviderDetail :=
  {| info := {| walletId := "com.ledger"; uuid := "3"; name := "Ledger";
                icon := "ledger.svg" |};
     provider := accepting |}.

Definition walletL : EIP6963ProviderDetail :=
  {| info := {| walletId := "org.legacy"; uuid := "4"; name := "Legacy";
                icon := "legacy.svg" |};
     provider := legacy |}.

Definition announce (d : EIP6963ProviderDetail) : EIP6963AnnounceProviderEvent :=
  {| detail := d |}.

(** One subscriber (callback 7) on a fresh page, no wallet answering. *)
Definition subscribed : Store.Page :=
  fst (Store.subscribe 7 [] Store.init).

(** A second subscriber (callback 8) next to the first. *)
Definition subscribed_twice : Store.Page :=
  fst (Store.subscribe 8 [] subscribed).

Definition connected : Component.World :=
  {| Component.selectedWallet := Some walletA;
     Component.userAccount := VStr "0xCD2a3d9F938E13CD947Ec05AbC7FE734Df8DD826";
     Component.console := [];
     Component.calls := [] |}.



(** A stand-in for [JSON.stringify]. *)
Definition stringify (v : JsValue) : string := "{}".

(** The Ledger library loading and starting; its cleanup function is 5. *)
Definition ledger : Bootstrap.Library :=
  {| Bootstrap.styles := Fulfilled tt;
     Bootstrap.initializeLedgerProvider := Fulfilled (fun _ => Fulfilled 5) |}.

(** The style sheet cannot be fetched. *)
Definition ledger_without_styles : Bootstrap.Library :=
  {| Bootstrap.styles := Rejected (VStr "Failed to fetch dynamically imported module");
     Bootstrap.initializeLedgerProvider := Fulfilled (fun _ => Fulfilled 5) |}.

End Samples.

(** * Properties of the store *)

Import Store.

Section StoreFacts.

Implicit Types (st : Page) (ev : EIP6963AnnounceProviderEvent).
Implicit Types (ps ds : list EIP6963ProviderDetail) (ls : list Listener).

Lemma announced_In ev ps :
  announced ev ps = true <-> In (event_uuid ev) (uuids ps).
Proof.
  unfold announced, uuids. rewrite existsb_exists, in_map_iff.
  split; intros [p [H1 H2]]; exists p.
  - apply String.eqb_eq in H2. auto.
  - split; [assumption | now apply String.eqb_eq].
Qed.

Lemma announced_app ev ps ds :
  announced ev (ps ++ ds) = announced ev ps || announced ev ds.
Proof. apply existsb_app. Qed.

Lemma announced_self ev ps : announced ev (ps ++ [detail ev]) = true.
Proof.
  rewrite announced_app. cbn. unfold event_uuid.
  rewrite String.eqb_refl. now rewrite orb_true_r.
Qed.

Lemma onAnnouncement_announced cb ev st :
  announced ev (providers st) = true -> onAnnouncement cb ev st = st.
Proof. unfold onAnnouncement. now intros ->. Qed.

Lemma onAnnouncement_settles cb ev st :
  announced ev (providers (onAnnouncement cb ev st)) = true.
Proof.
  unfold onAnnouncement.
  destruct (announced ev (providers st)) eqn:E; [assumption |].
  apply announced_self.
Qed.

Lemma deliver_announced ev ls st :
  announced ev (providers st) = true -> deliver ev ls st = st.
Proof.
  intros H. induction ls as [| l ls IH]; [reflexivity |].
  cbn. rewrite (onAnnouncement_announced _ _ _ H). exact IH.
Qed.

(** Only the first listener can find the uuid missing. *)
Lemma dispatch_head ev st :
  dispatch ev st =
  match listeners st with
  | [] => st
  | l :: _ => onAnnouncement (callback l) ev st
  end.
Proof.
  unfold dispatch. destruct (listeners st) as [| l ls]; [reflexivity |].
  cbn. apply deliver_announced, onAnnouncement_settles.
Qed.

Lemma dispatch_listeners ev st : listeners (dispatch ev st) = listeners st.
Proof.
  rewrite dispatch_head. destruct (listeners st) as [| l ls] eqn:E; [assumption |].
  unfold onAnnouncement. now destruct (announced ev (providers st)).
Qed.

Lemma dispatch_fresh ev st : fresh (dispatch ev st) = fresh st.
Proof.
  rewrite dispatch_head. destruct (listeners st) as [| l ls]; [reflexivity |].
  unfold onAnnouncement. now destruct (announced ev (providers st)).
Qed.

Lemma dispatch_all_listeners evs st :
  listeners (dispatch_all evs st) = listeners st.
Proof.
  revert st. induction evs as [| e evs IH]; intros st; [reflexivity |].
  cbn. now rewrite IH, dispatch_listeners.
Qed.

Lemma dispatch_all_fresh evs st : fresh (dispatch_all evs st) = fresh st.
Proof.
  revert st. induction evs as [| e evs IH]; intros st; [reflexivity |].
  cbn. now rewrite IH, dispatch_fresh.
Qed.

Lemma dispatch_all_app evs1 evs2 st :
  dispatch_all (evs1 ++ evs2) st = dispatch_all evs2 (dispatch_all evs1 st).
Proof. apply fold_left_app. Qed.

Lemma dispatch_announced ev st :
  announced ev (providers st) = true -> dispatch ev st = st.
Proof. apply deliver_announced. Qed.

Lemma dispatch_deaf ev st : listeners st = [] -> dispatch ev st = st.
Proof. intros H. rewrite dispatch_head. now rewrite H. Qed.

Lemma dispatch_all_deaf evs st : listeners st = [] -> dispatch_all evs st = st.
Proof.
  revert st. induction evs as [| e evs IH]; intros st H; [reflexivity |].
  cbn. rewrite (dispatch_deaf _ _ H). now apply IH.
Qed.

Lemma dispatch_new ev st l ls :
  listeners st = l :: ls ->
  announced ev (providers st) = false ->
  dispatch ev st =
  {| providers := providers st ++ [detail ev];
     listeners := listeners st;
     fresh := fresh st;
     trace := trace st ++ [Notified (callback l)] |}.
Proof.
  intros Hl Hn. rewrite dispatch_head. unfold onAnnouncement.
  rewrite Hn, Hl. reflexivity.
Qed.

(** The collection after one delivered event. *)
Lemma dispatch_providers ev st :
  listeners st <> [] ->
  providers (dispatch ev st) =
  if announced ev (providers st) then providers st
  else providers st ++ [detail ev].
Proof.
  intros Hl. rewrite dispatch_head.
  destruct (listeners st) as [| l ls]; [congruence |].
  unfold onAnnouncement. now destruct (announced ev (providers st)).
Qed.

End StoreFacts.

(** * The store against the first-seen collection *)

Section FirstSeen.

Implicit Types (st : Page) (ev : EIP6963AnnounceProviderEvent).
Implicit Types (ps ds : list EIP6963ProviderDetail).

Local Abbreviation unseen ps := (fun d => negb (announced {| detail := d |} ps)).
Local Abbreviation other d :=
  (fun x => negb (String.eqb (uuid (info x)) (uuid (info d)))).

Lemma filter_twice {A : Type} (f g : A -> bool) (l : list A) :
  filter f (filter g l) = filter (fun x => g x && f x) l.
Proof.
  induction l as [| a l IH]; [reflexivity |].
  cbn. destruct (g a); cbn; [destruct (f a) |]; now rewrite IH.
Qed.

Lemma uuids_app ps ds : uuids (ps ++ ds) = uuids ps ++ uuids ds.
Proof. apply map_app. Qed.

Lemma uuids_events evs : uuids (map detail evs) = map event_uuid evs.
Proof. unfold uuids. rewrite map_map. reflexivity. Qed.

Lemma first_seen_In_uuids ds u :
  In u (uuids (first_seen ds)) <-> In u (uuids ds).
Proof.
  induction ds as [| d ds IH]; [reflexivity |].
  cbn. rewrite <- IH. unfold uuids. rewrite !in_map_iff.
  split.
  - intros [H | [p [Hp Hin]]]; [now left |].
    apply filter_In in Hin. right. exists p. tauto.
  - intros [H | [p [Hp Hin]]]; [now left |].
    destruct (String.eqb (uuid (info p)) (uuid (info d))) eqn:E.
    + apply String.eqb_eq in E. left. congruence.
    + right. exists p. split; [assumption |].
      apply filter_In. now rewrite E.
Qed.

Lemma uuids_filter_NoDup (f : EIP6963ProviderDetail -> bool) ps :
  NoDup (uuids ps) -> NoDup (uuids (filter f ps)).
Proof.
  induction ps as [| p ps IH]; cbn; intros H; [constructor |].
  inversion H as [| ? ? Hn Hd]; subst.
  destruct (f p); cbn; [constructor |]; auto.
  intros Hin. apply Hn. unfold uuids in *.
  apply in_map_iff in Hin. destruct Hin as [q [Hq Hin]].
  apply filter_In in Hin. apply in_map_iff. exists q. tauto.
Qed.

Lemma first_seen_NoDup ds : NoDup (uuids (first_seen ds)).
Proof.
  induction ds as [| d ds IH]; cbn; constructor.
  - unfold uuids. rewrite in_map_iff. intros [p [Hp Hin]].
    apply filter_In in Hin. destruct Hin as [_ Hne].
    rewrite Hp, String.eqb_refl in Hne. discriminate.
  - now apply uuids_filter_NoDup.
Qed.

(** The entry kept for a uuid is the detail of its first announcement. *)
Lemma first_seen_find evs u e :
  find (fun x => String.eqb (event_uuid x) u) evs = Some e ->
  In (detail e) (first_seen (map detail evs)) /\
  forall p, In p (first_seen (map detail evs)) -> uuid (info p) = u -> p = detail e.
Proof.
  induction evs as [| x evs IH]; cbn; [discriminate |].
  destruct (String.eqb (event_uuid x) u) eqn:E.
  - intros [= ->]. apply String.eqb_eq in E. split; [now left |].
    intros p [Hp | Hp] Hu; [now symmetry |].
    apply filter_In in Hp. destruct Hp as [_ Hne].
    unfold event_uuid in E. rewrite Hu, E, String.eqb_refl in Hne. discriminate.
  - intros Hf. destruct (IH Hf) as [Hin Huniq].
    apply String.eqb_neq in E.
    destruct (find_some _ _ Hf) as [_ Hu]. apply String.eqb_eq in Hu.
    split.
    + right. apply filter_In. split; [assumption |].
      apply negb_true_iff, String.eqb_neq. unfold event_uuid in *. congruence.
    + intros p [Hp | Hp] Hpu.
      * subst p. unfold event_uuid in E. contradiction.
      * apply filter_In in Hp. apply Huniq; tauto.
Qed.

Lemma dispatch_all_providers evs : forall st,
  listeners st <> [] ->
  providers (dispatch_all evs st) =
  providers st ++ filter (unseen (providers st)) (first_seen (map detail evs)).
Proof.
  induction evs as [| e evs IH]; intros st Hl.
  - cbn. now rewrite app_nil_r.
  - change (dispatch_all (e :: evs) st) with (dispatch_all evs (dispatch e st)).
    rewrite IH by now rewrite dispatch_listeners.
    rewrite (dispatch_providers _ _ Hl). cbn [map first_seen filter].
    change (announced {| detail := detail e |} (providers st))
      with (announced e (providers st)).
    destruct (announced e (providers st)) eqn:E; cbn [negb].
    + f_equal. rewrite filter_twice. apply filter_ext_in. intros a _.
      destruct (String.eqb (uuid (info a)) (uuid (info (detail e)))) eqn:Ea;
        cbn; [| reflexivity].
      apply String.eqb_eq in Ea. unfold announced, event_uuid in *. cbn.
      rewrite Ea. now rewrite E.
    + rewrite <- app_assoc. cbn. do 2 f_equal.
      rewrite filter_twice. apply filter_ext_in. intros a _.
      rewrite announced_app. cbn. unfold event_uuid. cbn.
      rewrite orb_false_r, negb_orb, andb_comm.
      now rewrite (String.eqb_sym (uuid (info (detail e)))).
Qed.

Lemma dispatch_all_first_seen evs st :
  listeners st <> [] -> providers st = [] ->
  providers (dispatch_all evs st) = first_seen (map detail evs).
Proof.
  intros Hl Hp. rewrite (dispatch_all_providers _ _ Hl), Hp. cbn.
  induction (first_seen (map detail evs)) as [| d ds IH]; [reflexivity |].
  cbn. now rewrite IH.
Qed.

Lemma onAnnouncement_NoDup cb ev st :
  NoDup (uuids (providers st)) ->
  NoDup (uuids (providers (onAnnouncement cb ev st))).
Proof.
  intros H. unfold onAnnouncement.
  destruct (announced ev (providers st)) eqn:E; [assumption |].
  cbn. rewrite uuids_app. apply NoDup_app; [assumption | |].
  - cbn. constructor; [intros [] | constructor].
  - intros a Ha [<- | []].
    apply announced_In in Ha. unfold event_uuid in Ha. congruence.
Qed.

Lemma dispatch_NoDup ev st :
  NoDup (uuids (providers st)) -> NoDup (uuids (providers (dispatch ev st))).
Proof.
  intros H. rewrite dispatch_head.
  destruct (listeners st); [assumption | now apply onAnnouncement_NoDup].
Qed.

Lemma dispatch_all_NoDup evs : forall st,
  NoDup (uuids (providers st)) -> NoDup (uuids (providers (dispatch_all evs st))).
Proof.
  induction evs as [| e evs IH]; intros st H; [assumption |].
  cbn. apply IH. now apply dispatch_NoDup.
Qed.

Lemma step_NoDup st a :
  NoDup (uuids (providers st)) -> NoDup (uuids (providers (step st a))).
Proof.
  destruct a as [cb answer | id | ev]; cbn; intros H.
  - unfold requestProvider. now apply dispatch_all_NoDup.
  - assumption.
  - now apply dispatch_NoDup.
Qed.

Lemma run_NoDup acts : forall st,
  NoDup (uuids (providers st)) -> NoDup (uuids (providers (run acts st))).
Proof.
  induction acts as [| a acts IH]; intros st H; [assumption |].
  cbn. apply IH. now apply step_NoDup.
Qed.

End FirstSeen.

(** * Effects of delivery *)

Section Effects.

Implicit Types (st : Page) (ev : EIP6963AnnounceProviderEvent).

(** What a sequence of announcements adds, and whom it notifies: the
    callback of the first registered listener, once per added entry. *)
Lemma dispatch_all_added evs : forall st l ls,
  listeners st = l :: ls ->
  exists added,
    providers (dispatch_all evs st) = providers st ++ added /\
    trace (dispatch_all evs st) =
    trace st ++ repeat (Notified (callback l)) (List.length added).
Proof.
  induction evs as [| e evs IH]; intros st l ls Hl.
  - exists []. cbn. now rewrite !app_nil_r.
  - change (dispatch_all (e :: evs) st) with (dispatch_all evs (dispatch e st)).
    destruct (announced e (providers st)) eqn:E.
    + rewrite (dispatch_announced _ _ E). now apply (IH st l ls).
    + assert (Hl' : listeners (dispatch e st) = l :: ls)
        by now rewrite dispatch_listeners.
      destruct (IH _ l ls Hl') as [added [Hp Ht]].
      rewrite (dispatch_new e st l ls Hl E) in Hp, Ht |- *. cbn in Hp, Ht.
      exists (detail e :: added). rewrite Hp, Ht, <- !app_assoc.
      split; reflexivity.
Qed.

Lemma count_requests_app t1 t2 :
  count_requests (t1 ++ t2) = count_requests t1 + count_requests t2.
Proof. unfold count_requests. now rewrite filter_app, length_app. Qed.

Lemma count_requests_notes c n : count_requests (repeat (Notified c) n) = 0.
Proof. induction n as [| n IH]; [reflexivity | exact IH]. Qed.

Lemma dispatch_all_count_requests evs st :
  count_requests (trace (dispatch_all evs st)) = count_requests (trace st).
Proof.
  destruct (listeners st) as [| l ls] eqn:E.
  - now rewrite (dispatch_all_deaf evs st E).
  - destruct (dispatch_all_added evs st l ls E) as [added [_ Ht]].
    rewrite Ht, count_requests_app, count_requests_notes. lia.
Qed.

End Effects.

(** * The claims about the store *)

Import Samples.

(** C1. When the collection is empty and a listener is subscribed, any
    sequence of delivered announcements leaves one entry per distinct uuid,
    in the order in which the uuids were first announced: the collection is
    the first-seen list of the announced details, its uuids are pairwise
    distinct and are exactly the announced ones, and whatever is added after
    a prefix of the sequence comes after the entries of that prefix and
    carries uuids the prefix did not announce. *)
Theorem announcements_collected_first_seen :
  forall (st : Page) (evs : list EIP6963AnnounceProviderEvent),
    listeners st <> [] ->
    providers st = [] ->
    value (dispatch_all evs st) = first_seen (map detail evs) /\
    NoDup (uuids (value (dispatch_all evs st))) /\
    (forall u, In u (uuids (value (dispatch_all evs st))) <->
               In u (map event_uuid evs)) /\
    (forall pre post, evs = pre ++ post ->
       exists later,
         value (dispatch_all evs st) = value (dispatch_all pre st) ++ later /\
         forall u, In u (uuids later) -> ~ In u (map event_uuid pre)).
Proof.
  intros st evs Hl Hp. unfold value.
  rewrite (dispatch_all_first_seen evs st Hl Hp).
  split; [reflexivity |]. split; [apply first_seen_NoDup |]. split.
  - intros u. now rewrite first_seen_In_uuids, uuids_events.
  - intros pre post ->. rewrite <- (dispatch_all_first_seen _ st Hl Hp).
    rewrite dispatch_all_app.
    assert (Hl' : listeners (dispatch_all pre st) <> [])
      by now rewrite dispatch_all_listeners.
    rewrite (dispatch_all_providers post _ Hl').
    eexists. split; [reflexivity |].
    intros u Hu Hpre. unfold uuids in Hu. apply in_map_iff in Hu.
    destruct Hu as [p [Hpu Hin]]. apply filter_In in Hin.
    destruct Hin as [_ Hun]. apply negb_true_iff in Hun.
    assert (Hk : announced {| detail := p |} (providers (dispatch_all pre st)) = true).
    { apply announced_In. unfold event_uuid. cbn. rewrite Hpu.
      rewrite (dispatch_all_first_seen pre st Hl Hp).
      now rewrite first_seen_In_uuids, uuids_events. }
    congruence.
Qed.

(** The scenario of the specification: A (uuid 1), A again, then B (uuid 2). *)
Lemma announcements_collected_first_seen_witness :
  listeners subscribed <> [] /\
  providers subscribed = [] /\
  value (dispatch_all [announce walletA; announce walletA; announce walletB]
           subscribed) = [walletA; walletB].
Proof.
  assert (Hl : listeners subscribed <> []) by (cbn; discriminate).
  assert (Hp : providers subscribed = []) by reflexivity.
  split; [exact Hl |]. split; [exact Hp |].
  exact (proj1 (announcements_collected_first_seen subscribed
                  [announce walletA; announce walletA; announce walletB] Hl Hp)).
Defined.

(** C2. Delivering an announcement whose uuid is already in the collection
    leaves the whole page as it was (collection, listeners and effects), and
    delivering the same announcement twice is the same as delivering it
    once. *)
Theorem reannouncement_changes_nothing :
  (forall (ev : EIP6963AnnounceProviderEvent) (st : Page),
     In (event_uuid ev) (uuids (providers st)) -> dispatch ev st = st) /\
  (forall (ev : EIP6963AnnounceProviderEvent) (st : Page),
     dispatch ev (dispatch ev st) = dispatch ev st).
Proof.
  split.
  - intros ev st H. apply dispatch_announced, announced_In, H.
  - intros ev st. destruct (listeners st) as [| l ls] eqn:E.
    + now rewrite !(dispatch_deaf ev st E).
    + apply dispatch_announced. rewrite dispatch_head, E.
      apply onAnnouncement_settles.
Qed.

(** The uuid of A announced again, by another wallet, after A and B. *)
Lemma reannouncement_changes_nothing_witness :
  let st := dispatch_all [announce walletA; announce walletB] subscribed in
  In (event_uuid (announce walletA_again)) (uuids (providers st)) /\
  dispatch (announce walletA_again) st = st.
Proof.
  cbv zeta.
  assert (H : In (event_uuid (announce walletA_again))
                (uuids (providers
                   (dispatch_all [announce walletA; announce walletB] subscribed))))
    by (cbn; now left).
  split; [exact H |].
  exact (proj1 reannouncement_changes_nothing (announce walletA_again) _ H).
Defined.

(** C7. The uuids of the collection are pairwise distinct at module load,
    each run of the listener and each delivered event keeps them so, and so
    they are after every history of subscriptions, unsubscriptions and
    announcements. *)
Theorem uuids_stay_unique :
  NoDup (uuids (providers init)) /\
  (forall cb ev st, NoDup (uuids (providers st)) ->
                    NoDup (uuids (providers (onAnnouncement cb ev st)))) /\
  (forall ev st, NoDup (uuids (providers st)) ->
                 NoDup (uuids (providers (dispatch ev st)))) /\
  (forall evs, NoDup (uuids (providers (dispatch_all evs init)))) /\
  (forall acts, NoDup (uuids (providers (run acts init)))).
Proof.
  assert (H0 : NoDup (uuids (providers init))) by constructor.
  split; [exact H0 |].
  split; [exact onAnnouncement_NoDup |].
  split; [exact dispatch_NoDup |].
  split; intros; [now apply dispatch_all_NoDup | now apply run_NoDup].
Qed.

Lemma uuids_stay_unique_witness :
  NoDup (uuids (providers subscribed)) /\
  NoDup (uuids (providers (dispatch (announce walletA) subscribed))).
Proof.
  assert (H : NoDup (uuids (providers subscribed))) by constructor.
  split; [exact H |].
  exact (proj1 (proj2 (proj2 uuids_stay_unique)) (announce walletA) subscribed H).
Defined.

(** C8. An announcement either leaves the collection as it was or extends
    it by one entry at the end, the announced detail, whose uuid was not in
    it; after any sequence of announcements the earlier collection is still
    there, unchanged, as the front of the new one. *)
Theorem collection_is_append_only :
  forall (st : Page),
    (forall ev,
       providers (dispatch ev st) = providers st \/
       (providers (dispatch ev st) = providers st ++ [detail ev] /\
        ~ In (event_uuid ev) (uuids (providers st)))) /\
    (forall evs, exists added,
       providers (dispatch_all evs st) = providers st ++ added).
Proof.
  intros st. split.
  - intros ev. rewrite dispatch_head.
    destruct (listeners st) as [| l ls]; [now left |].
    unfold onAnnouncement. destruct (announced ev (providers st)) eqn:E.
    + now left.
    + right. split; [reflexivity |].
      intros H. apply announced_In in H. congruence.
  - intros evs. destruct (listeners st) as [| l ls] eqn:E.
    + exists []. now rewrite (dispatch_all_deaf evs st E), app_nil_r.
    + eexists. apply dispatch_all_providers. congruence.
Qed.

(** C6. With a listener subscribed and the collection empty at first, the
    entry kept for a uuid is the detail (display info and provider) of the
    first announcement of that uuid, and it is the only entry of that uuid;
    an announcement of a uuid announced before changes nothing; two
    announcements of different uuids both have entries, whatever else they
    share. *)
Theorem first_announcement_wins :
  forall (st : Page) (evs : list EIP6963AnnounceProviderEvent),
    listeners st <> [] ->
    providers st = [] ->
    (forall u e,
       find (fun x => String.eqb (event_uuid x) u) evs = Some e ->
       In (detail e) (providers (dispatch_all evs st)) /\
       forall p, In p (providers (dispatch_all evs st)) ->
                 uuid (info p) = u -> p = detail e) /\
    (forall ev, In (event_uuid ev) (map event_uuid evs) ->
       dispatch ev (dispatch_all evs st) = dispatch_all evs st) /\
    (forall e1 e2, In e1 evs -> In e2 evs -> event_uuid e1 <> event_uuid e2 ->
       exists p1 p2,
         In p1 (providers (dispatch_all evs st)) /\
         In p2 (providers (dispatch_all evs st)) /\
         uuid (info p1) = event_uuid e1 /\
         uuid (info p2) = event_uuid e2 /\
         p1 <> p2).
Proof.
  intros st evs Hl Hp.
  assert (Hmem : forall u, In u (map event_uuid evs) ->
                           In u (uuids (providers (dispatch_all evs st)))).
  { intros u Hu. rewrite (dispatch_all_first_seen evs st Hl Hp).
    now rewrite first_seen_In_uuids, uuids_events. }
  split; [| split].
  - intros u e Hf. rewrite (dispatch_all_first_seen evs st Hl Hp).
    now apply first_seen_find.
  - intros ev Hin. apply dispatch_announced, announced_In, Hmem, Hin.
  - intros e1 e2 H1 H2 Hne.
    assert (G1 := Hmem _ (in_map event_uuid _ _ H1)).
    assert (G2 := Hmem _ (in_map event_uuid _ _ H2)).
    unfold uuids in G1, G2. apply in_map_iff in G1, G2.
    destruct G1 as [p1 [E1 I1]]. destruct G2 as [p2 [E2 I2]].
    exists p1, p2. repeat split; try assumption.
    intros ->. congruence.
Qed.

(** Uuid 1 announced by two wallets, then the first wallet's display info
    and provider announced under uuid 3. *)
Lemma first_announcement_wins_witness :
  let evs := [announce walletA; announce walletA_again; announce walletA_twin] in
  listeners subscribed <> [] /\
  providers subscribed = [] /\
  find (fun x => String.eqb (event_uuid x) "1") evs = Some (announce walletA) /\
  In walletA (providers (dispatch_all evs subscribed)) /\
  (forall p, In p (providers (dispatch_all evs subscribed)) ->
             uuid (info p) = "1" -> p = walletA) /\
  providers (dispatch_all evs subscribed) = [walletA; walletA_twin].
Proof.
  cbv zeta.
  assert (Hl : listeners subscribed <> []) by (cbn; discriminate).
  assert (Hp : providers subscribed = []) by reflexivity.
  assert (Hf : find (fun x => String.eqb (event_uuid x) "1")
                 [announce walletA; announce walletA_again; announce walletA_twin]
               = Some (announce walletA)) by reflexivity.
  split; [exact Hl |]. split; [exact Hp |]. split; [exact Hf |].
  split; [| split].
  - exact (proj1 (proj1 (first_announcement_wins subscribed _ Hl Hp) _ _ Hf)).
  - exact (proj2 (proj1 (first_announcement_wins subscribed _ Hl Hp) _ _ Hf)).
  - reflexivity.
Defined.

(** C3. A subscription made when no other is live, then any announcements,
    then a call of its unsubscribe function: whatever is announced later,
    the collection read through [store.value] stays what it was when the
    unsubscribe function was called, and no callback is called. *)
Theorem unsubscribed_store_is_frozen :
  forall (st : Page) (cb : nat)
         (answer during later : list EIP6963AnnounceProviderEvent),
    listeners st = [] ->
    let sub := subscribe cb answer st in
    let at_unsubscribe := unsubscribe (snd sub) (dispatch_all during (fst sub)) in
    value at_unsubscribe = value (dispatch_all during (fst sub)) /\
    listeners at_unsubscribe = [] /\
    value (dispatch_all later at_unsubscribe) = value at_unsubscribe /\
    trace (dispatch_all later at_unsubscribe) = trace at_unsubscribe.
Proof.
  intros st cb answer during later Hl sub at_unsubscribe.
  assert (Hdeaf : listeners at_unsubscribe = []).
  { unfold at_unsubscribe, sub, subscribe, unsubscribe, removeEventListener.
    cbn. unfold requestProvider. rewrite !dispatch_all_listeners. cbn.
    rewrite Hl. cbn. now rewrite Nat.eqb_refl. }
  split; [reflexivity |]. split; [exact Hdeaf |].
  now rewrite (dispatch_all_deaf later _ Hdeaf).
Qed.

(** Subscribe on the fresh page, hear A, unsubscribe, then B is announced. *)
Lemma unsubscribed_store_is_frozen_witness :
  listeners init = [] /\
  value (dispatch_all [announce walletB]
           (unsubscribe (snd (subscribe 7 [] init))
              (dispatch_all [announce walletA] (fst (subscribe 7 [] init)))))
  = [walletA].
Proof.
  assert (Hl : listeners init = []) by reflexivity.
  split; [exact Hl |].
  exact (proj1 (proj2 (proj2
           (unsubscribed_store_is_frozen init 7 [] [announce walletA]
              [announce walletB] Hl)))).
Defined.

(** C4. A call of [store.subscribe] sends the request-provider broadcast
    exactly once: the effects of the call are that one broadcast followed
    only by callback notifications; delivering an announcement and
    unsubscribing send none. *)
Theorem subscribe_requests_once :
  forall (cb : nat) (answer : list EIP6963AnnounceProviderEvent) (st : Page),
    count_requests (trace (fst (subscribe cb answer st))) =
    S (count_requests (trace st)) /\
    (exists c n, trace (fst (subscribe cb answer st)) =
                 trace st ++ RequestProvider :: repeat (Notified c) n) /\
    (forall ev, count_requests (trace (dispatch ev st)) =
                count_requests (trace st)) /\
    (forall id, count_requests (trace (unsubscribe id st)) =
                count_requests (trace st)).
Proof.
  intros cb answer st. split; [| split; [| split]].
  - unfold subscribe, addEventListener, requestProvider. cbn [fst].
    rewrite dispatch_all_count_requests. cbn [trace].
    rewrite count_requests_app. cbn. lia.
  - cbn. unfold requestProvider.
    destruct (listeners st ++ [{| lid := fresh st; callback := cb |}])
      as [| l ls] eqn:E.
    + destruct (listeners st); discriminate.
    + match goal with
      | |- context [dispatch_all answer ?s] =>
          destruct (dispatch_all_added answer s l ls eq_refl) as [added [_ Ht]]
      end.
      exists (callback l), (List.length added). rewrite Ht. cbn.
      now rewrite <- app_assoc.
  - intros ev. exact (dispatch_all_count_requests [ev] st).
  - reflexivity.
Qed.


(** X21. While a listener is the first one registered (so when it is the
    only one): an announcement of a uuid not in the collection appends the
    entry and calls its callback once; an announcement of a uuid in the
    collection changes nothing and calls no callback; over any sequence of
    announcements the effects are exactly one call of that callback per
    entry added. *)
Theorem first_subscriber_notified_per_append :
  forall (st : Page) (l : Listener) (ls : list Listener),
    listeners st = l :: ls ->
    (forall ev, ~ In (event_uuid ev) (uuids (providers st)) ->
       providers (dispatch ev st) = providers st ++ [detail ev] /\
       trace (dispatch ev st) = trace st ++ [Notified (callback l)]) /\
    (forall ev, In (event_uuid ev) (uuids (providers st)) ->
       providers (dispatch ev st) = providers st /\
       trace (dispatch ev st) = trace st) /\
    (forall evs,
       trace (dispatch_all evs st) =
       trace st ++
       repeat (Notified (callback l))
         (List.length (providers (dispatch_all evs st)) -
          List.length (providers st))).
Proof.
  intros st l ls Hl. split; [| split].
  - intros ev Hn.
    assert (E : announced ev (providers st) = false).
    { destruct (announced ev (providers st)) eqn:E; [| reflexivity].
      apply announced_In in E. contradiction. }
    rewrite (dispatch_new ev st l ls Hl E). split; reflexivity.
  - intros ev Hin. apply announced_In in Hin.
    rewrite (dispatch_announced ev st Hin). split; reflexivity.
  - intros evs. destruct (dispatch_all_added evs st l ls Hl) as [added [Hp Ht]].
    rewrite Ht, Hp, length_app. do 2 f_equal. lia.
Qed.

Lemma first_subscriber_notified_per_append_witness :
  listeners subscribed = [{| lid := 0; callback := 7 |}] /\
  trace (dispatch_all [announce walletA; announce walletA; announce walletB]
           subscribed) = [RequestProvider; Notified 7; Notified 7].
Proof.
  assert (Hl : listeners subscribed = [{| lid := 0; callback := 7 |}])
    by reflexivity.
  split; [exact Hl |].
  exact (proj2 (proj2 (first_subscriber_notified_per_append subscribed _ _ Hl))
           [announce walletA; announce walletA; announce walletB]).
Defined.

(** * The claims about the component *)

Import Component.

Section Handlers.

Implicit Types (w : World) (d : EIP6963ProviderDetail).

(** [handleConnect] by the answer of the wallet. *)
Lemma handleConnect_rejected d w reason :
  request (provider d) (List.length (calls w)) accountsRequest = Rejected reason ->
  handleConnect d w =
  (Fulfilled tt,
   {| selectedWallet := selectedWallet w;
      userAccount := userAccount w;
      console := console w ++ [ConsoleError reason];
      calls := calls w ++ [{| target := handle (provider d); sent := accountsRequest |}] |}).
Proof.
  intros H. unfold handleConnect, bind, catch, rpc.
  change {| method := "eth_requestAccounts"; params := None |} with accountsRequest.
  rewrite H. reflexivity.
Qed.

Lemma handleConnect_fulfilled d w v :
  request (provider d) (List.length (calls w)) accountsRequest = Fulfilled v ->
  handleConnect d w =
  (Fulfilled tt,
   {| selectedWallet :=
        if truthy v && truthy (index0 v) then Some d else selectedWallet w;
      userAccount :=
        if truthy v && truthy (index0 v) then index0 v else userAccount w;
      console := console w;
      calls := calls w ++ [{| target := handle (provider d); sent := accountsRequest |}] |}).
Proof.
  intros H. unfold handleConnect, bind, catch, rpc.
  change {| method := "eth_requestAccounts"; params := None |} with accountsRequest.
  rewrite H. cbn. destruct (truthy v && truthy (index0 v)); reflexivity.
Qed.

(** A rejected account request is logged and does not reject the handler. *)
Lemma handleConnect_never_rejects d w :
  fst (handleConnect d w) = Fulfilled tt /\
  forall reason,
    request (provider d) (List.length (calls w)) accountsRequest = Rejected reason ->
    console (snd (handleConnect d w)) = console w ++ [ConsoleError reason].
Proof.
  destruct (request (provider d) (List.length (calls w)) accountsRequest)
    as [v | r] eqn:E.
  - rewrite (handleConnect_fulfilled d w v E). split; [reflexivity | discriminate].
  - rewrite (handleConnect_rejected d w r E).
    split; [reflexivity | now intros reason [= ->]].
Qed.

Variable JSON_stringify : JsValue -> string.

(** Rejected signing requests are logged and do not reject the handler. *)
Lemma signMessages_never_rejects w :
  fst (signMessages JSON_stringify w) = Fulfilled tt.
Proof.
  unfold signMessages. destruct (selectedWallet w) as [wallet |]; [| reflexivity].
  destruct (truthy (userAccount w)); [| reflexivity].
  unfold bind, catch, rpc, console_error, console_log. cbn.
  destruct (request (provider wallet) _ _); cbn;
    destruct (request (provider wallet) _ _); reflexivity.
Qed.

Lemma signMessages_logs_rejections w wallet r1 r2 :
  selectedWallet w = Some wallet ->
  truthy (userAccount w) = true ->
  request (provider wallet) (List.length (calls w))
    (produceTypedDataPayload JSON_stringify (userAccount w)) = Rejected r1 ->
  request (provider wallet) (S (List.length (calls w)))
    (produceTypedDataPayload JSON_stringify (userAccount w)) = Rejected r2 ->
  exists entry,
    console (snd (signMessages JSON_stringify w)) =
    console w ++ [ConsoleError r1; ConsoleError r2; entry].
Proof.
  intros Hs Ha H1 H2. unfold signMessages. rewrite Hs, Ha.
  unfold bind, catch, rpc, console_error, console_log. cbn.
  rewrite H1. cbn. rewrite length_app. cbn. rewrite Nat.add_1_r, H2. cbn.
  eexists. rewrite <- !app_assoc. reflexivity.
Qed.

End Handlers.

(** C9. When the account request of [handleConnect] rejects, or resolves to
    [undefined], to an empty array, or to an array whose first element is
    falsy, the handler changes neither [selectedWallet] nor [userAccount]
    (and so not [isConnected]), and its promise is fulfilled. *)
Theorem failed_connect_keeps_connection :
  forall (d : EIP6963ProviderDetail) (w : World),
    let outcome := request (provider d) (List.length (calls w)) accountsRequest in
    ((exists reason, outcome = Rejected reason) \/
     outcome = Fulfilled VUndefined \/
     outcome = Fulfilled (VArr []) \/
     (exists first rest,
        outcome = Fulfilled (VArr (first :: rest)) /\ truthy first = false)) ->
    selectedWallet (snd (handleConnect d w)) = selectedWallet w /\
    userAccount (snd (handleConnect d w)) = userAccount w /\
    isConnected (snd (handleConnect d w)) = isConnected w /\
    fst (handleConnect d w) = Fulfilled tt.
Proof.
  intros d w outcome H. subst outcome.
  destruct H as [[reason H] | [H | [H | [first [rest [H Hf]]]]]].
  - rewrite (handleConnect_rejected d w reason H). repeat split.
  - rewrite (handleConnect_fulfilled d w _ H). repeat split.
  - rewrite (handleConnect_fulfilled d w _ H). repeat split.
  - rewrite (handleConnect_fulfilled d w _ H). cbn. rewrite Hf. repeat split.
Qed.

(** The user turns down the account request of a wallet while connected to
    another one. *)
Lemma failed_connect_keeps_connection_witness :
  (exists reason,
     request (provider walletB) (List.length (calls connected)) accountsRequest
     = Rejected reason) /\
  selectedWallet (snd (handleConnect walletB connected)) = Some walletA /\
  userAccount (snd (handleConnect walletB connected)) =
    VStr "0xCD2a3d9F938E13CD947Ec05AbC7FE734Df8DD826".
Proof.
  assert (H : exists reason,
             request (provider walletB) (List.length (calls connected))
               accountsRequest = Rejected reason)
    by (eexists; reflexivity).
  split; [exact H |].
  destruct (failed_connect_keeps_connection walletB connected (or_introl H))
    as [H1 [H2 _]].
  split; [exact H1 | exact H2].
Defined.

(** C5 at the polling interval. When the wallet rejects [eth_chainId], or
    answers it and rejects [wallet_getCapabilities], the promise of the
    interval function is rejected with the wallet's reason and nothing is
    written to the console: the rejection is neither caught nor logged. *)
Theorem polling_rejection_escapes :
  forall (wallet : EIP6963ProviderDetail) (account : JsValue) (w : World)
         (reason : JsValue),
    (request (provider wallet) (List.length (calls w)) chainIdRequest
       = Rejected reason \/
     exists chainId,
       request (provider wallet) (List.length (calls w)) chainIdRequest
         = Fulfilled chainId /\
       request (provider wallet) (S (List.length (calls w)))
         (capabilitiesRequest account) = Rejected reason) ->
    fst (intervalCallback wallet account w) = Rejected reason /\
    console (snd (intervalCallback wallet account w)) = console w.
Proof.
  intros wallet account w reason H.
  unfold intervalCallback, bind, rpc.
  change {| method := "eth_chainId"; params := None |} with chainIdRequest.
  change {| method := "wallet_getCapabilities"; params := Some [account] |}
    with (capabilitiesRequest account).
  destruct H as [H | [chainId [H1 H2]]].
  - rewrite H. split; reflexivity.
  - rewrite H1. cbn. rewrite length_app. cbn. rewrite Nat.add_1_r, H2.
    split; reflexivity.
Qed.

(** Connect to a wallet without [wallet_getCapabilities]; the effect sets up
    the interval; its first tick rejects and logs nothing. *)
Lemma polling_rejection_escapes_witness :
  let w := snd (handleConnect walletL mounted) in
  isConnected w = true /\
  pollingEffect w = Some (intervalCallback walletL (userAccount w)) /\
  fst (intervalCallback walletL (userAccount w) w)
    = Rejected (VStr "The requested method is not supported.") /\
  console (snd (intervalCallback walletL (userAccount w) w)) = [].
Proof.
  cbv zeta.
  split; [reflexivity |]. split; [reflexivity |].
  apply (polling_rejection_escapes walletL
           (userAccount (snd (handleConnect walletL mounted)))
           (snd (handleConnect walletL mounted))
           (VStr "The requested method is not supported.")).
  right. exists (VStr "0x1"). split; reflexivity.
Defined.

(** * More on the store *)

Section StoreHistories.

Implicit Types (st : Page) (ev : EIP6963AnnounceProviderEvent).

Local Abbreviation ids_below st :=
  (Forall (fun l => lid l < fresh st) (listeners st)).

Lemma step_ids_below st a : ids_below st -> ids_below (step st a).
Proof.
  intros H. destruct a as [cb answer | id | ev]; cbn.
  - unfold requestProvider. rewrite dispatch_all_listeners, dispatch_all_fresh.
    cbn. apply Forall_app. split.
    + eapply Forall_impl; [| exact H]. cbn. intros l Hl. lia.
    + constructor; [cbn; lia | constructor].
  - apply Forall_forall. intros l Hl. apply filter_In in Hl.
    rewrite Forall_forall in H. apply H. tauto.
  - now rewrite dispatch_listeners, dispatch_fresh.
Qed.

Lemma run_ids_below acts : forall st, ids_below st -> ids_below (run acts st).
Proof.
  induction acts as [| a acts IH]; intros st H; [assumption |].
  cbn. apply IH. now apply step_ids_below.
Qed.

Lemma filter_keeps_all {A : Type} (f : A -> bool) (l : list A) :
  Forall (fun x => f x = true) l -> filter f l = l.
Proof.
  induction 1 as [| x l Hx _ IH]; [reflexivity |].
  cbn. now rewrite Hx, IH.
Qed.

Lemma dispatch_all_grows evs st :
  exists added, providers (dispatch_all evs st) = providers st ++ added.
Proof.
  destruct (listeners st) as [| l ls] eqn:E.
  - exists []. now rewrite (dispatch_all_deaf evs st E), app_nil_r.
  - eexists. apply dispatch_all_providers. congruence.
Qed.

Lemma step_grows st a :
  exists added, providers (step st a) = providers st ++ added.
Proof.
  destruct a as [cb answer | id | ev]; cbn.
  - unfold requestProvider.
    match goal with
    | |- context [dispatch_all answer ?s] =>
        destruct (dispatch_all_grows answer s) as [added H]
    end.
    exists added. exact H.
  - exists []. now rewrite app_nil_r.
  - exact (dispatch_all_grows [ev] st).
Qed.

Lemma count_notifications_app t1 t2 :
  count_notifications (t1 ++ t2) = count_notifications t1 + count_notifications t2.
Proof. unfold count_notifications. now rewrite filter_app, length_app. Qed.

Lemma count_notifications_notes c n :
  count_notifications (repeat (Notified c) n) = n.
Proof.
  induction n as [| n IH]; [reflexivity |].
  unfold count_notifications in *. cbn. f_equal. exact IH.
Qed.

(** Delivery notifies as often as it adds. *)
Lemma dispatch_all_balance evs st :
  count_notifications (trace (dispatch_all evs st)) + List.length (providers st) =
  count_notifications (trace st) + List.length (providers (dispatch_all evs st)).
Proof.
  destruct (listeners st) as [| l ls] eqn:E.
  - rewrite (dispatch_all_deaf evs st E). lia.
  - destruct (dispatch_all_added evs st l ls E) as [added [Hp Ht]].
    rewrite Hp, Ht, count_notifications_app, count_notifications_notes, length_app.
    lia.
Qed.

Lemma run_fresh acts : forall st,
  fresh (run acts st) =
  fresh st + List.length (filter (fun a => match a with
                                           | Subscribe _ _ => true
                                           | _ => false
                                           end) acts).
Proof.
  induction acts as [| a acts IH]; intros st; [cbn; lia |].
  cbn [run fold_left]. change (fold_left step acts (step st a))
    with (run acts (step st a)).
  rewrite IH. destruct a as [cb answer | id | ev]; cbn [filter List.length].
  - cbn [step subscribe addEventListener fst]. unfold requestProvider.
    rewrite dispatch_all_fresh. cbn [fresh]. lia.
  - cbn. lia.
  - cbn [step]. rewrite dispatch_fresh. lia.
Qed.

End StoreHistories.

(** X1. In every history of the page, a subscription followed by any
    announcements and by the call of its unsubscribe function leaves the
    listeners exactly as they were before the subscription: the function
    removes its own listener and no other. *)
Theorem unsubscribe_removes_own_listener :
  forall (acts : list Action) (cb : nat)
         (answer during : list EIP6963AnnounceProviderEvent),
    let st := run acts init in
    let sub := subscribe cb answer st in
    listeners (dispatch_all during (fst sub)) =
      listeners st ++ [{| lid := snd sub; callback := cb |}] /\
    listeners (unsubscribe (snd sub) (dispatch_all during (fst sub))) =
      listeners st.
Proof.
  intros acts cb answer during st sub.
  assert (Hids : Forall (fun l => lid l < fresh st) (listeners st)).
  { apply run_ids_below. constructor. }
  assert (Hls : listeners (dispatch_all during (fst sub)) =
                listeners st ++ [{| lid := fresh st; callback := cb |}]).
  { unfold sub, subscribe, addEventListener, requestProvider. cbn [fst].
    now rewrite !dispatch_all_listeners. }
  split; [exact Hls |].
  unfold unsubscribe, removeEventListener. cbn [listeners].
  rewrite Hls. cbn [sub subscribe addEventListener snd].
  rewrite filter_app. cbn. rewrite Nat.eqb_refl. cbn. rewrite app_nil_r.
  apply filter_keeps_all. eapply Forall_impl; [| exact Hids].
  cbn. intros l Hl. apply negb_true_iff, Nat.eqb_neq. lia.
Qed.

(** X2. Calling an unsubscribe function a second time, or for a listener that
    is not registered, changes nothing; unsubscribing never touches the
    collection or the effects. *)
Theorem unsubscribe_is_idempotent :
  forall (id : nat) (st : Page),
    unsubscribe id (unsubscribe id st) = unsubscribe id st /\
    ((forall l, In l (listeners st) -> lid l <> id) -> unsubscribe id st = st) /\
    value (unsubscribe id st) = value st /\
    trace (unsubscribe id st) = trace st.
Proof.
  intros id st. unfold unsubscribe, removeEventListener. cbn.
  split; [| split; [| split; reflexivity]].
  - f_equal. apply filter_keeps_all, Forall_forall.
    intros l Hl. apply filter_In in Hl. tauto.
  - intros H. destruct st as [ps ls fr tr]. cbn in *. f_equal.
    apply filter_keeps_all, Forall_forall. intros l Hl.
    apply negb_true_iff, Nat.eqb_neq. now apply H.
Qed.

Lemma unsubscribe_is_idempotent_witness :
  (forall l, In l (listeners subscribed) -> lid l <> 9) /\
  unsubscribe 9 subscribed = subscribed.
Proof.
  assert (H : forall l, In l (listeners subscribed) -> lid l <> 9).
  { intros l [<- | []]. cbn. discriminate. }
  split; [exact H |].
  exact (proj1 (proj2 (unsubscribe_is_idempotent 9 subscribed)) H).
Defined.

(** X3. No history of subscriptions, unsubscriptions and announcements
    removes, replaces or reorders an entry: the collection before is the
    front of the collection after. *)
Theorem history_only_appends :
  forall (acts : list Action) (st : Page),
    exists added, value (run acts st) = value st ++ added.
Proof.
  unfold value. induction acts as [| a acts IH]; intros st.
  - exists []. cbn. now rewrite app_nil_r.
  - cbn. destruct (IH (step st a)) as [more Hm].
    destruct (step_grows st a) as [added Ha].
    exists (added ++ more). unfold run in Hm. rewrite Hm, Ha.
    now rewrite app_assoc.
Qed.

(** X4. Announcements made before anyone has subscribed are lost: after the
    first subscription the collection holds the wallets that answered the
    request-provider broadcast, and only those. *)
Theorem early_announcements_are_lost :
  forall (early answer : list EIP6963AnnounceProviderEvent) (cb : nat),
    dispatch_all early init = init /\
    value (fst (subscribe cb answer (dispatch_all early init))) =
      first_seen (map detail answer).
Proof.
  intros early answer cb.
  assert (H : dispatch_all early init = init) by now apply dispatch_all_deaf.
  split; [exact H |]. rewrite H.
  unfold value, subscribe, addEventListener, requestProvider. cbn [fst].
  apply dispatch_all_first_seen; cbn; [discriminate | reflexivity].
Qed.

(** X5. Over the whole life of the page, callbacks have been called as
    often as the collection has entries, and the request-provider broadcast
    has been sent as often as [store.subscribe] has been called. *)
Theorem effects_account_for_history :
  forall (acts : list Action),
    count_notifications (trace (run acts init)) =
      List.length (value (run acts init)) /\
    count_requests (trace (run acts init)) =
      List.length (filter (fun a => match a with
                                    | Subscribe _ _ => true
                                    | _ => false
                                    end) acts).
Proof.
  intros acts. unfold value.
  pose proof (run_fresh acts init) as F. change (fresh init) with 0 in F.
  rewrite Nat.add_0_l in F. rewrite <- F. clear F.
  assert (G : forall st,
             count_notifications (trace st) = List.length (providers st) /\
             count_requests (trace st) = fresh st ->
             count_notifications (trace (run acts st)) =
               List.length (providers (run acts st)) /\
             count_requests (trace (run acts st)) = fresh (run acts st)).
  { induction acts as [| a acts IH]; intros st H; [exact H |].
    cbn. apply IH. destruct H as [Hn Hr].
    destruct a as [cb answer | id | ev]; cbn.
    - unfold requestProvider. cbn [providers listeners fresh trace]. split.
      + match goal with
        | |- context [dispatch_all answer ?s] =>
            pose proof (dispatch_all_balance answer s) as B
        end.
        cbn [trace providers] in B. rewrite count_notifications_app in B.
        cbn in B. lia.
      + rewrite dispatch_all_count_requests, dispatch_all_fresh.
        cbn [trace fresh]. rewrite count_requests_app. cbn. lia.
    - split; assumption.
    - split.
      + pose proof (dispatch_all_balance [ev] st) as B. cbn in B. lia.
      + rewrite (dispatch_all_count_requests [ev] st : 
                   count_requests (trace (dispatch ev st)) = _).
        now rewrite dispatch_fresh. }
  apply G. split; reflexivity.
Qed.

Lemma dispatch_all_known (evs : list EIP6963AnnounceProviderEvent) (st : Page) :
  (forall e, In e evs -> In (event_uuid e) (uuids (providers st))) ->
  dispatch_all evs st = st.
Proof.
  induction evs as [| e evs IH]; intros H; [reflexivity |].
  cbn. rewrite dispatch_announced.
  - apply IH. intros e' He'. apply H. now right.
  - apply announced_In, H. now left.
Qed.

(** X6. When the subscription registered first unsubscribes, the next one
    takes over: an announcement of a new uuid is appended and the callback
    called is that of the second listener. *)
Theorem next_subscriber_takes_over :
  forall (st : Page) (l1 l2 : Listener) (ls : list Listener)
         (ev : EIP6963AnnounceProviderEvent),
    listeners st = l1 :: l2 :: ls ->
    lid l2 <> lid l1 ->
    ~ In (event_uuid ev) (uuids (providers st)) ->
    value (dispatch ev (unsubscribe (lid l1) st)) = value st ++ [detail ev] /\
    trace (dispatch ev (unsubscribe (lid l1) st)) =
      trace st ++ [Notified (callback l2)].
Proof.
  intros st l1 l2 ls ev Hl Hne Hn.
  assert (E : announced ev (providers (unsubscribe (lid l1) st)) = false).
  { change (announced ev (providers st) = false).
    destruct (announced ev (providers st)) eqn:E; [| reflexivity].
    apply announced_In in E. contradiction. }
  assert (Hl' : listeners (unsubscribe (lid l1) st) =
                l2 :: filter (fun l => negb (Nat.eqb (lid l) (lid l1))) ls).
  { cbn. rewrite Hl. cbn. rewrite Nat.eqb_refl. cbn.
    apply Nat.eqb_neq in Hne. now rewrite Hne. }
  rewrite (dispatch_new ev _ _ _ Hl' E). split; reflexivity.
Qed.

Lemma next_subscriber_takes_over_witness :
  listeners subscribed_twice =
    [{| lid := 0; callback := 7 |}; {| lid := 1; callback := 8 |}] /\
  1 <> 0 /\
  ~ In (event_uuid (announce walletA)) (uuids (providers subscribed_twice)) /\
  trace (dispatch (announce walletA) (unsubscribe 0 subscribed_twice)) =
    [RequestProvider; RequestProvider; Notified 8].
Proof.
  assert (Hl : listeners subscribed_twice =
               [{| lid := 0; callback := 7 |}; {| lid := 1; callback := 8 |}])
    by reflexivity.
  assert (Hne : 1 <> 0) by discriminate.
  assert (Hn : ~ In (event_uuid (announce walletA))
                 (uuids (providers subscribed_twice))) by (cbn; intros []).
  split; [exact Hl |]. split; [exact Hne |]. split; [exact Hn |].
  exact (proj2 (next_subscriber_takes_over subscribed_twice
                  {| lid := 0; callback := 7 |} {| lid := 1; callback := 8 |} []
                  (announce walletA) Hl Hne Hn)).
Defined.

(** X7. A subscription whose request-provider broadcast is answered only by
    wallets already in the collection finds the collection as it was and
    gets no callback: the only effect is the broadcast. *)
Theorem resubscription_is_silent :
  forall (st : Page) (cb : nat) (answer : list EIP6963AnnounceProviderEvent),
    (forall e, In e answer -> In (event_uuid e) (uuids (providers st))) ->
    value (fst (subscribe cb answer st)) = value st /\
    trace (fst (subscribe cb answer st)) = trace st ++ [RequestProvider].
Proof.
  intros st cb answer H.
  unfold value, subscribe, addEventListener, requestProvider. cbn [fst].
  rewrite dispatch_all_known; [split; reflexivity | exact H].
Qed.

(** A is collected, the subscriber leaves, a new one subscribes and A
    answers the broadcast. *)
Lemma resubscription_is_silent_witness :
  let st := unsubscribe 0 (dispatch (announce walletA) subscribed) in
  (forall e, In e [announce walletA] ->
             In (event_uuid e) (uuids (providers st))) /\
  value (fst (subscribe 8 [announce walletA] st)) = [walletA] /\
  trace (fst (subscribe 8 [announce walletA] st)) =
    [RequestProvider; Notified 7; RequestProvider].
Proof.
  cbv zeta.
  assert (H : forall e, In e [announce walletA] ->
                In (event_uuid e)
                  (uuids (providers
                     (unsubscribe 0 (dispatch (announce walletA) subscribed))))).
  { intros e [<- | []]. cbn. now left. }
  split; [exact H |].
  exact (resubscription_is_silent
           (unsubscribe 0 (dispatch (announce walletA) subscribed)) 8
           [announce walletA] H).
Defined.

(** * More on the handlers *)

(** X8. When the account request resolves to an array whose first element
    is truthy, [handleConnect] selects the clicked wallet and takes that first
    element as the user account, whatever accounts follow it; the component
    is connected and nothing is logged. *)
Theorem connect_takes_first_account :
  forall (d : EIP6963ProviderDetail) (w : World) (first : JsValue)
         (rest : list JsValue),
    request (provider d) (List.length (calls w)) accountsRequest
      = Fulfilled (VArr (first :: rest)) ->
    truthy first = true ->
    selectedWallet (snd (handleConnect d w)) = Some d /\
    userAccount (snd (handleConnect d w)) = first /\
    isConnected (snd (handleConnect d w)) = true /\
    console (snd (handleConnect d w)) = console w.
Proof.
  intros d w first rest H Hf.
  rewrite (handleConnect_fulfilled d w _ H). cbn. rewrite Hf. cbn.
  rewrite Hf. repeat split.
Qed.

Lemma connect_takes_first_account_witness :
  request (provider walletA) (List.length (calls mounted)) accountsRequest
    = Fulfilled (VArr [VStr "0xCD2a3d9F938E13CD947Ec05AbC7FE734Df8DD826"]) /\
  truthy (VStr "0xCD2a3d9F938E13CD947Ec05AbC7FE734Df8DD826") = true /\
  selectedWallet (snd (handleConnect walletA mounted)) = Some walletA /\
  userAccount (snd (handleConnect walletA mounted)) =
    VStr "0xCD2a3d9F938E13CD947Ec05AbC7FE734Df8DD826".
Proof.
  assert (H : request (provider walletA) (List.length (calls mounted))
                accountsRequest
              = Fulfilled (VArr [VStr "0xCD2a3d9F938E13CD947Ec05AbC7FE734Df8DD826"]))
    by reflexivity.
  assert (Hf : truthy (VStr "0xCD2a3d9F938E13CD947Ec05AbC7FE734Df8DD826") = true)
    by reflexivity.
  split; [exact H |]. split; [exact Hf |].
  destruct (connect_takes_first_account walletA mounted _ _ H Hf) as [H1 [H2 _]].
  split; [exact H1 | exact H2].
Defined.

(** X9. Whatever the wallet answers, one call of [handleConnect] sends
    exactly one request, [eth_requestAccounts] without params, to the provider
    of the clicked wallet; it never retries. *)
Theorem connect_sends_one_request :
  forall (d : EIP6963ProviderDetail) (w : World),
    calls (snd (handleConnect d w)) =
    calls w ++ [{| target := handle (provider d);
                   sent := {| method := "eth_requestAccounts"; params := None |} |}].
Proof.
  intros d w.
  destruct (request (provider d) (List.length (calls w)) accountsRequest)
    as [v | r] eqn:E.
  - now rewrite (handleConnect_fulfilled d w v E).
  - now rewrite (handleConnect_rejected d w r E).
Qed.

Section SigningFacts.

Variable JSON_stringify : JsValue -> string.

(** X10. [signMessages] does nothing at all while the component is not
    connected: no request, no log entry, no state change. *)
Theorem sign_needs_connection :
  forall (w : World),
    isConnected w = false ->
    signMessages JSON_stringify w = (Fulfilled tt, w).
Proof.
  intros w H. unfold signMessages, isConnected in *.
  destruct (selectedWallet w); [| reflexivity]. now rewrite H.
Qed.

(** X11. While connected, [signMessages] sends the same typed-data request
    for the user account twice to the selected provider, the second also when
    the first was rejected; each rejection is logged, a rejected signature is
    reported as [undefined], the Signatures entry is logged last in every
    case, and the connection is left as it was. *)
Theorem sign_sends_two_requests :
  forall (w : World) (wallet : EIP6963ProviderDetail),
    selectedWallet w = Some wallet ->
    truthy (userAccount w) = true ->
    let payload := produceTypedDataPayload JSON_stringify (userAccount w) in
    let answer1 := request (provider wallet) (List.length (calls w)) payload in
    let answer2 := request (provider wallet) (S (List.length (calls w))) payload in
    let logged a :=
      match a with Rejected reason => [ConsoleError reason] | Fulfilled _ => [] end in
    let signature a :=
      match a with Fulfilled v => v | Rejected _ => VUndefined end in
    let w' := snd (signMessages JSON_stringify w) in
    calls w' =
      calls w ++ [{| target := handle (provider wallet); sent := payload |};
                  {| target := handle (provider wallet); sent := payload |}] /\
    console w' =
      console w ++ logged answer1 ++ logged answer2 ++
      [ConsoleLog "%c[Wallet Debug] Signatures:"
         "color: white; background: #e67e22; font-weight: bold; padding: 2px 6px; border-radius: 3px;"
         (VObj [("signature1", signature answer1);
                ("signature2", signature answer2);
                ("typeofSignature1", VStr (typeof (signature answer1)));
                ("typeofSignature2", VStr (typeof (signature answer2)))])] /\
    selectedWallet w' = selectedWallet w /\
    userAccount w' = userAccount w /\
    fst (signMessages JSON_stringify w) = Fulfilled tt.
Proof.
  intros w wallet Hs Ha payload answer1 answer2 logged signature w'.
  subst w'. unfold signMessages. rewrite Hs, Ha.
  unfold bind, catch, rpc, console_error, console_log.
  cbn [calls console selectedWallet userAccount fst snd].
  fold payload. fold answer1.
  destruct answer1 as [v1 | r1];
    cbn [calls console selectedWallet userAccount fst snd];
    rewrite length_app; cbn [List.length]; rewrite Nat.add_1_r;
    fold answer2;
    destruct answer2 as [v2 | r2];
    cbn [calls console selectedWallet userAccount fst snd logged signature app];
    rewrite <- ?app_assoc; cbn [app]; repeat split; exact Hs.
Qed.

End SigningFacts.

Lemma sign_needs_connection_witness :
  isConnected mounted = false /\
  signMessages stringify mounted = (Fulfilled tt, mounted).
Proof.
  assert (H : isConnected mounted = false) by reflexivity.
  split; [exact H |].
  exact (sign_needs_connection stringify mounted H).
Defined.

(** Connected to A, whose wallet signs both times. *)
Lemma sign_sends_two_requests_witness :
  selectedWallet connected = Some walletA /\
  truthy (userAccount connected) = true /\
  calls (snd (signMessages stringify connected)) =
    [{| target := 1;
        sent := produceTypedDataPayload stringify (userAccount connected) |};
     {| target := 1;
        sent := produceTypedDataPayload stringify (userAccount connected) |}].
Proof.
  assert (Hs : selectedWallet connected = Some walletA) by reflexivity.
  assert (Ha : truthy (userAccount connected) = true) by reflexivity.
  split; [exact Hs |]. split; [exact Ha |].
  exact (proj1 (sign_sends_two_requests stringify connected walletA Hs Ha)).
Defined.

(** X12. When the wallet answers both requests, one run of the interval
    function sends [eth_chainId] and then [wallet_getCapabilities] for the
    account, both to the selected provider, logs one Effect-run entry with the
    two answers, and leaves the connection as it was. *)
Theorem polling_logs_both_answers :
  forall (wallet : EIP6963ProviderDetail) (account : JsValue) (w : World)
         (chainId capabilities : JsValue),
    request (provider wallet) (List.length (calls w)) chainIdRequest
      = Fulfilled chainId ->
    request (provider wallet) (S (List.length (calls w)))
      (capabilitiesRequest account) = Fulfilled capabilities ->
    intervalCallback wallet account w =
    (Fulfilled tt,
     {| selectedWallet := selectedWallet w;
        userAccount := userAccount w;
        console :=
          console w ++
          [ConsoleLog "%c[Wallet Debug] Effect run:"
             "color: white; background: #0070f3; font-weight: bold; padding: 2px 6px; border-radius: 3px;"
             (VObj [("chainId", chainId); ("capabilities", capabilities)])];
        calls :=
          calls w ++
          [{| target := handle (provider wallet); sent := chainIdRequest |};
           {| target := handle (provider wallet);
              sent := capabilitiesRequest account |}] |}).
Proof.
  intros wallet account w chainId capabilities H1 H2.
  unfold intervalCallback, bind, rpc, console_log.
  change {| method := "eth_chainId"; params := None |} with chainIdRequest.
  change {| method := "wallet_getCapabilities"; params := Some [account] |}
    with (capabilitiesRequest account).
  rewrite H1. cbn [calls console selectedWallet userAccount].
  rewrite length_app. cbn [List.length]. rewrite Nat.add_1_r, H2.
  cbn [calls console selectedWallet userAccount].
  now rewrite <- app_assoc.
Qed.

Lemma polling_logs_both_answers_witness :
  request (provider walletA) (List.length (calls connected)) chainIdRequest
    = Fulfilled (VStr "0x1") /\
  request (provider walletA) (S (List.length (calls connected)))
    (capabilitiesRequest (userAccount connected)) = Fulfilled (VStr "0x1") /\
  fst (intervalCallback walletA (userAccount connected) connected) = Fulfilled tt.
Proof.
  assert (H1 : request (provider walletA) (List.length (calls connected))
                 chainIdRequest = Fulfilled (VStr "0x1")) by reflexivity.
  assert (H2 : request (provider walletA) (S (List.length (calls connected)))
                 (capabilitiesRequest (userAccount connected))
               = Fulfilled (VStr "0x1")) by reflexivity.
  split; [exact H1 |]. split; [exact H2 |].
  exact (f_equal fst
           (polling_logs_both_answers walletA (userAccount connected) connected
              _ _ H1 H2)).
Defined.

(** X13. When the wallet rejects [eth_chainId], the interval function stops
    there: [wallet_getCapabilities] is not requested, the only request sent is
    [eth_chainId], and the connection is left as it was. *)
Theorem polling_stops_at_first_rejection :
  forall (wallet : EIP6963ProviderDetail) (account : JsValue) (w : World)
         (reason : JsValue),
    request (provider wallet) (List.length (calls w)) chainIdRequest
      = Rejected reason ->
    calls (snd (intervalCallback wallet account w)) =
      calls w ++ [{| target := handle (provider wallet); sent := chainIdRequest |}] /\
    selectedWallet (snd (intervalCallback wallet account w)) = selectedWallet w /\
    userAccount (snd (intervalCallback wallet account w)) = userAccount w.
Proof.
  intros wallet account w reason H.
  unfold intervalCallback, bind, rpc.
  change {| method := "eth_chainId"; params := None |} with chainIdRequest.
  rewrite H. repeat split.
Qed.

Lemma polling_stops_at_first_rejection_witness :
  request (provider walletB) (List.length (calls connected)) chainIdRequest
    = Rejected (VStr "User rejected the request.") /\
  calls (snd (intervalCallback walletB (userAccount connected) connected)) =
    [{| target := 2; sent := chainIdRequest |}].
Proof.
  assert (H : request (provider walletB) (List.length (calls connected))
                chainIdRequest = Rejected (VStr "User rejected the request."))
    by reflexivity.
  split; [exact H |].
  exact (proj1 (polling_stops_at_first_rejection walletB (userAccount connected)
                  connected _ H)).
Defined.

(** * The render *)

Import View.

Section RenderFacts.

Implicit Types (ps : list EIP6963ProviderDetail) (w : World).

Lemma handlers_buttons ps :
  flat_map handlers (map walletButton ps) = map Connect ps.
Proof.
  induction ps as [| p ps IH]; [reflexivity |].
  cbn. now rewrite IH.
Qed.

Lemma handlers_walletList ps : handlers (walletList ps) = map Connect ps.
Proof.
  unfold walletList. destruct ps as [| p ps]; [reflexivity |].
  cbn [List.length Nat.ltb Nat.leb handlers]. apply handlers_buttons.
Qed.

Lemma handlers_selectedPanel w : handlers (selectedPanel w) = [].
Proof.
  unfold selectedPanel. destruct (selectedWallet w); [| reflexivity].
  destruct (truthy (userAccount w)); reflexivity.
Qed.

Lemma handlers_render ps w :
  handlers (render ps w) =
  map Connect ps ++ (if isConnected w then [Sign] else []).
Proof.
  unfold render. cbn [handlers flat_map app].
  rewrite handlers_walletList, handlers_selectedPanel, !app_nil_r.
  destruct (isConnected w); cbn; now rewrite ?app_nil_r.
Qed.

Lemma keys_buttons ps :
  map (fun item => match item with
                   | Element _ key _ _ _ => key
                   | _ => None
                   end) (map walletButton ps) = map Some (uuids ps).
Proof.
  unfold uuids. rewrite !map_map. reflexivity.
Qed.

End RenderFacts.

(** X14. The buttons of a render, in document order, are one connect button
    per entry of the collection, in the order of the collection and each
    bound to its own entry, followed by the sign button exactly when the
    component is connected; with an empty collection there is no connect
    button. *)
Theorem render_binds_buttons :
  forall (ps : list EIP6963ProviderDetail) (w : World),
    handlers (render ps w) =
    map Connect ps ++ (if isConnected w then [Sign] else []).
Proof. exact handlers_render. Qed.

(** X15. After every history of the store, the keys React gets for the
    wallet buttons are the uuids of the collection, in order, and no key
    occurs twice. *)
Theorem wallet_keys_are_unique :
  forall (acts : list Action),
    sibling_keys (walletList (value (run acts init))) =
      map Some (uuids (value (run acts init))) /\
    NoDup (sibling_keys (walletList (value (run acts init)))).
Proof.
  intros acts.
  assert (K : sibling_keys (walletList (value (run acts init))) =
              map Some (uuids (value (run acts init)))).
  { unfold walletList. destruct (value (run acts init)) as [| p ps]; [reflexivity |].
    cbn [List.length Nat.ltb Nat.leb sibling_keys]. apply keys_buttons. }
  split; [exact K |]. rewrite K.
  apply NoDup_map_NoDup_ForallPairs.
  - intros x y _ _ [= ->]. reflexivity.
  - apply run_NoDup. constructor.
Qed.

(** * The page in use *)

Section SessionFacts.

Implicit Types (w : World) (d : EIP6963ProviderDetail).

(** What a handler leaves alone. *)
Lemma handleConnect_frame d w :
  calls (snd (handleConnect d w)) =
    calls w ++ [{| target := handle (provider d); sent := accountsRequest |}] /\
  ((selectedWallet (snd (handleConnect d w)) = selectedWallet w /\
    userAccount (snd (handleConnect d w)) = userAccount w) \/
   (selectedWallet (snd (handleConnect d w)) = Some d /\
    truthy (userAccount (snd (handleConnect d w))) = true)).
Proof.
  destruct (request (provider d) (List.length (calls w)) accountsRequest)
    as [v | r] eqn:E.
  - rewrite (handleConnect_fulfilled d w v E). cbn. split; [reflexivity |].
    destruct (truthy v && truthy (index0 v)) eqn:C.
    + right. apply andb_true_iff in C. tauto.
    + left. tauto.
  - rewrite (handleConnect_rejected d w r E). cbn. tauto.
Qed.

Lemma intervalCallback_frame wallet account w :
  selectedWallet (snd (intervalCallback wallet account w)) = selectedWallet w /\
  userAccount (snd (intervalCallback wallet account w)) = userAccount w /\
  exists sent_now,
    calls (snd (intervalCallback wallet account w)) = calls w ++ sent_now /\
    forall c, In c sent_now -> target c = handle (provider wallet).
Proof.
  unfold intervalCallback, bind, rpc, console_log.
  destruct (request (provider wallet) _ _);
    cbn [calls console selectedWallet userAccount fst snd].
  - destruct (request (provider wallet) _ _);
      cbn [calls console selectedWallet userAccount fst snd];
      repeat split; eexists;
      (split; [rewrite <- app_assoc; reflexivity |]);
      intros c [<- | [<- | []]]; reflexivity.
  - repeat split. eexists. split; [reflexivity |].
    intros c [<- | []]. reflexivity.
Qed.

Lemma pollingEffect_cases w :
  (selectedWallet w = None /\ pollingEffect w = None) \/
  (exists wallet, selectedWallet w = Some wallet /\
     (pollingEffect w = None \/
      pollingEffect w = Some (intervalCallback wallet (userAccount w)))).
Proof.
  unfold pollingEffect. destruct (selectedWallet w) as [wallet |]; [| now left].
  right. exists wallet. split; [reflexivity |].
  destruct (truthy (userAccount w)); [now right | now left].
Qed.

Lemma connection_kept w w' :
  selectedWallet w' = selectedWallet w ->
  userAccount w' = userAccount w ->
  isConnected w' = isConnected w.
Proof. unfold isConnected. now intros -> ->. Qed.

Lemma dispatch_keeps_entries ev st d :
  In d (providers st) -> In d (providers (dispatch ev st)).
Proof.
  intros H. destruct (dispatch_all_grows [ev] st) as [added Ha].
  cbn in Ha. rewrite Ha. apply in_or_app. now left.
Qed.

(** The handlers of a render only reach wallets of the collection, and the
    sign button is there only when connected. *)
Lemma rendered_handler ps w n h :
  nth_error (handlers (render ps w)) n = Some h ->
  (exists d, h = Connect d /\ In d ps) \/ (h = Sign /\ isConnected w = true).
Proof.
  intros H. apply nth_error_In in H. rewrite handlers_render in H.
  apply in_app_or in H. destruct H as [H | H].
  - apply in_map_iff in H. destruct H as [d [<- Hd]]. left. now exists d.
  - destruct (isConnected w); [| contradiction].
    destruct H as [<- | []]. now right.
Qed.

Lemma mounts_buttons ps : forallb mounts (map walletButton ps) = true.
Proof. induction ps as [| p ps IH]; [reflexivity | exact IH]. Qed.

(** Only the account shown in the selected panel can make a render throw. *)
Lemma mounts_render ps w :
  mounts (render ps w) =
  if isConnected w then renderable (userAccount w) else true.
Proof.
  assert (L : mounts (walletList ps) = true).
  { unfold walletList. destruct (Nat.ltb 0 (List.length ps)); [| reflexivity].
    apply mounts_buttons. }
  unfold render. cbn [mounts forallb]. rewrite L.
  unfold selectedPanel, isConnected.
  destruct (selectedWallet w); [| reflexivity].
  destruct (truthy (userAccount w)); [| reflexivity].
  cbn. now rewrite !andb_true_r.
Qed.

Lemma alive_world (s : Session.State) :
  Session.alive s =
  if isConnected (snd s) then renderable (userAccount (snd s)) else true.
Proof. apply mounts_render. Qed.

Lemma commit_world (s : Session.State) : snd (Session.commit s) = snd s.
Proof. unfold Session.commit. now destruct (Session.alive s). Qed.

Lemma commit_providers (s : Session.State) :
  providers (fst (Session.commit s)) = providers (fst s).
Proof. unfold Session.commit. now destruct (Session.alive s). Qed.

Variable JSON_stringify : JsValue -> string.

Lemma signMessages_frame w :
  selectedWallet (snd (signMessages JSON_stringify w)) = selectedWallet w /\
  userAccount (snd (signMessages JSON_stringify w)) = userAccount w /\
  exists sent_now,
    calls (snd (signMessages JSON_stringify w)) = calls w ++ sent_now /\
    forall c, In c sent_now ->
      exists wallet, selectedWallet w = Some wallet /\
                     target c = handle (provider wallet).
Proof.
  unfold signMessages. destruct (selectedWallet w) as [wallet |] eqn:Hs.
  - destruct (truthy (userAccount w)) eqn:Ha.
    + unfold bind, catch, rpc, console_error, console_log.
      cbn [calls console selectedWallet userAccount fst snd].
      destruct (request (provider wallet) _ _);
        cbn [calls console selectedWallet userAccount fst snd];
        destruct (request (provider wallet) _ _);
        cbn [calls console selectedWallet userAccount fst snd];
        (split; [exact Hs |]); (split; [reflexivity |]);
        eexists; (split; [rewrite <- app_assoc; reflexivity |]);
        intros c [<- | [<- | []]]; exists wallet; split; reflexivity.
    + cbn. rewrite Hs. repeat split. exists []. rewrite app_nil_r.
      split; [reflexivity | intros c []].
  - cbn. rewrite Hs. repeat split. exists []. rewrite app_nil_r.
    split; [reflexivity | intros c []].
Qed.

Lemma click_stays_connected h w :
  isConnected w = true ->
  isConnected (snd (Session.click JSON_stringify h w)) = true.
Proof.
  intros H. destruct h as [d |]; cbn.
  - destruct (handleConnect_frame d w) as [_ [[Hs Ha] | [Hs Ha]]].
    + now rewrite (connection_kept _ _ Hs Ha).
    + unfold isConnected. now rewrite Hs.
  - destruct (signMessages_frame w) as [Hs [Ha _]].
    now rewrite (connection_kept _ _ Hs Ha).
Qed.

(** How a step changes the state of the component: not at all, by the
    handler of a rendered button, or by the interval function. *)
Lemma step_world page w e :
  snd (Session.step JSON_stringify (page, w) e) = w \/
  (exists n h,
     e = Session.Click n /\
     nth_error (handlers (render (value page) w)) n = Some h /\
     snd (Session.step JSON_stringify (page, w) e) =
       snd (Session.click JSON_stringify h w)) \/
  (exists tick,
     e = Session.Tick /\ pollingEffect w = Some tick /\
     snd (Session.step JSON_stringify (page, w) e) = snd (tick w)).
Proof.
  destruct e as [ev | n |]; cbn [Session.step].
  - now left.
  - destruct (Session.alive (page, w)); [| now left].
    destruct (nth_error _ n) as [h |] eqn:En; [| now left].
    right. left. exists n, h. rewrite commit_world. now repeat split.
  - destruct (Session.alive (page, w)); [| now left].
    destruct (pollingEffect w) as [tick |]; [| now left].
    right. right. exists tick. now repeat split.
Qed.

Lemma step_entries s e d :
  In d (providers (fst s)) ->
  In d (providers (fst (Session.step JSON_stringify s e))).
Proof.
  destruct s as [page w]. cbn [fst]. intros H.
  destruct e as [ev | n |]; cbn [Session.step].
  - now apply dispatch_keeps_entries.
  - destruct (Session.alive (page, w)); [| exact H].
    destruct (nth_error _ n); [| exact H].
    now rewrite commit_providers.
  - destruct (Session.alive (page, w)); [| exact H].
    destruct (pollingEffect w); exact H.
Qed.

Lemma polling_is_interval w tick :
  pollingEffect w = Some tick ->
  exists wallet, selectedWallet w = Some wallet /\
                 tick = intervalCallback wallet (userAccount w).
Proof.
  unfold pollingEffect. destruct (selectedWallet w) as [wallet |]; [| discriminate].
  destruct (truthy (userAccount w)); [| discriminate].
  intros [= <-]. now exists wallet.
Qed.

Lemma step_stays_connected s e :
  isConnected (snd s) = true ->
  isConnected (snd (Session.step JSON_stringify s e)) = true.
Proof.
  destruct s as [page w]. cbn [snd]. intros H.
  destruct (step_world page w e) as [E | [[n [h [_ [_ E]]]] | [tick [_ [Hp E]]]]];
    rewrite E.
  - exact H.
  - now apply click_stays_connected.
  - destruct (polling_is_interval w tick Hp) as [wallet [_ ->]].
    destruct (intervalCallback_frame wallet (userAccount w) w) as [Hs [Ha _]].
    now rewrite (connection_kept _ _ Hs Ha).
Qed.

Lemma run_stays_connected events : forall s,
  isConnected (snd s) = true ->
  isConnected (snd (Session.run JSON_stringify events s)) = true.
Proof.
  induction events as [| e events IH]; intros s H; [assumption |].
  cbn. apply IH. now apply step_stays_connected.
Qed.





End SessionFacts.

(** X16. Nothing the page does sets a connected component back to not
    connected: after every sequence of announcements, clicks and timer ticks
    the component is still mounted and connected (a later connect that fails
    keeps the wallet in use, one that succeeds replaces it), unless a connect
    has stored an account that React cannot render, in which case the render
    has thrown and the tree is unmounted. *)
Theorem session_stays_connected_while_mounted :
  forall (JSON_stringify : JsValue -> string) (events : list Session.Event)
         (s : Session.State),
    isConnected (snd s) = true ->
    let s' := Session.run JSON_stringify events s in
    (Session.alive s' = true /\ isConnected (snd s') = true) \/
    (Session.alive s' = false /\ renderable (userAccount (snd s')) = false).
Proof.
  intros js events s H s'.
  assert (C : isConnected (snd s') = true) by now apply run_stays_connected.
  destruct (Session.alive s') eqn:A; [now left | right].
  split; [reflexivity |]. rewrite alive_world, C in A. exact A.
Qed.

(** A is announced and connected; then B is announced, its button is
    clicked and the user turns B down; the timer fires. *)
Lemma session_stays_connected_while_mounted_witness :
  let s := Session.run stringify [Session.Click 0]
             (Session.started [announce walletA]) in
  let s' := Session.run stringify
              [Session.Announced (announce walletB); Session.Click 1; Session.Tick]
              s in
  isConnected (snd s) = true /\
  ((Session.alive s' = true /\ isConnected (snd s') = true) \/
   (Session.alive s' = false /\ renderable (userAccount (snd s')) = false)).
Proof.
  cbv zeta.
  assert (H : isConnected
                (snd (Session.run stringify [Session.Click 0]
                        (Session.started [announce walletA]))) = true)
    by reflexivity.
  split; [exact H |].
  exact (session_stays_connected_while_mounted stringify
           [Session.Announced (announce walletB); Session.Click 1; Session.Tick]
           _ H).
Defined.

(** X17. In every session from the mounted page, the selected wallet is an
    entry of the provider collection, and every request the page has sent
    went to the provider of an entry of the collection. *)
Theorem session_talks_to_announced_wallets :
  forall (JSON_stringify : JsValue -> string)
         (answer : list EIP6963AnnounceProviderEvent)
         (events : list Session.Event),
    let s := Session.run JSON_stringify events (Session.started answer) in
    (forall d, selectedWallet (snd s) = Some d -> In d (value (fst s))) /\
    (forall c, In c (calls (snd s)) ->
       exists d, In d (value (fst s)) /\ target c = handle (provider d)).
Proof.
  intros js answer events. unfold value.
  assert (G : forall s : Session.State,
             ((forall d, selectedWallet (snd s) = Some d -> In d (providers (fst s))) /\
              (forall c, In c (calls (snd s)) ->
                 exists d, In d (providers (fst s)) /\ target c = handle (provider d))) ->
             let s' := Session.run js events s in
             (forall d, selectedWallet (snd s') = Some d -> In d (providers (fst s'))) /\
             (forall c, In c (calls (snd s')) ->
                exists d, In d (providers (fst s')) /\ target c = handle (provider d))).
  { induction events as [| e events IH]; intros s H; [exact H |].
    cbn. apply IH. clear IH. destruct H as [Hsel Hcalls].
    pose proof (step_entries js s e) as Hin.
    assert (Hcalls' : forall c, In c (calls (snd s)) ->
              exists d, In d (providers (fst (Session.step js s e))) /\
                        target c = handle (provider d)).
    { intros c Hc. destruct (Hcalls c Hc) as [d [Hd Ht]]. exists d. auto. }
    destruct s as [page w]. cbn [fst snd] in Hsel, Hcalls, Hcalls', Hin.
    destruct (step_world js page w e)
      as [E | [[n [h [_ [En E]]]] | [tick [_ [Hp E]]]]]; rewrite E.
    - split; [intros d Hd; now apply Hin, Hsel | exact Hcalls'].
    - apply rendered_handler in En.
      destruct En as [[d [-> Hd]] | [-> Hc]]; cbn [Session.click].
      + destruct (handleConnect_frame d w) as [Hk [[Hs _] | [Hs _]]];
          rewrite Hk, Hs; (split; [| intros c Hc; apply in_app_or in Hc;
            destruct Hc as [Hc | [<- | []]];
            [now apply Hcalls' | exists d; split; [now apply Hin | reflexivity]]]).
        * intros d' Hd'. now apply Hin, Hsel.
        * intros d' [= <-]. now apply Hin.
      + destruct (signMessages_frame js w) as [Hs [_ [sent_now [Hk Ht]]]].
        rewrite Hk, Hs. split; [intros d Hd; now apply Hin, Hsel |].
        intros c Hc'. apply in_app_or in Hc'. destruct Hc' as [Hc' | Hc'].
        * now apply Hcalls'.
        * destruct (Ht c Hc') as [wallet [Hw Htc]].
          exists wallet. split; [now apply Hin, Hsel | exact Htc].
    - destruct (polling_is_interval w tick Hp) as [wallet [Hw ->]].
      destruct (intervalCallback_frame wallet (userAccount w) w)
        as [Hs [_ [sent_now [Hk Ht]]]].
      rewrite Hk, Hs. split; [intros d Hd; now apply Hin, Hsel |].
      intros c Hc'. apply in_app_or in Hc'. destruct Hc' as [Hc' | Hc'].
      + now apply Hcalls'.
      + exists wallet. split; [now apply Hin, Hsel | now apply Ht]. }
  apply G. cbn. split; [discriminate | intros c []].
Qed.

(** X18. In every session from the mounted page, as long as the component
    is not connected, no wallet is selected, the user account is the empty
    string, and the only requests the page has sent are
    [eth_requestAccounts]: no signing and no polling request goes out before
    a connect has succeeded. *)
Theorem session_asks_only_for_accounts_until_connected :
  forall (JSON_stringify : JsValue -> string)
         (answer : list EIP6963AnnounceProviderEvent)
         (events : list Session.Event),
    let s := Session.run JSON_stringify events (Session.started answer) in
    isConnected (snd s) = false ->
    selectedWallet (snd s) = None /\
    userAccount (snd s) = VStr "" /\
    Forall (fun c => sent c = accountsRequest) (calls (snd s)).
Proof.
  intros js answer events.
  assert (G : forall s : Session.State,
             (isConnected (snd s) = true \/
              (selectedWallet (snd s) = None /\
               userAccount (snd s) = VStr "" /\
               Forall (fun c => sent c = accountsRequest) (calls (snd s)))) ->
             let s' := Session.run js events s in
             isConnected (snd s') = true \/
             (selectedWallet (snd s') = None /\
              userAccount (snd s') = VStr "" /\
              Forall (fun c => sent c = accountsRequest) (calls (snd s')))).
  { induction events as [| e events IH]; intros s H; [exact H |].
    cbn. apply IH. clear IH.
    destruct H as [H | [Hs [Ha Hc]]];
      [left; now apply step_stays_connected |].
    destruct s as [page w]. cbn [fst snd] in *.
    assert (Hn : isConnected w = false) by (unfold isConnected; now rewrite Hs).
    destruct (step_world js page w e)
      as [E | [[n [h [_ [En E]]]] | [tick [_ [Hp E]]]]]; rewrite E.
    - right. tauto.
    - apply rendered_handler in En.
      destruct En as [[d [-> Hd]] | [_ Hcon]]; [| congruence].
      cbn [Session.click].
      destruct (handleConnect_frame d w) as [Hk [[Hs' Ha'] | [Hs' Ha']]].
      + right. rewrite Hk, Hs', Ha'. split; [exact Hs |]. split; [exact Ha |].
        apply Forall_app. split; [exact Hc |]. now constructor.
      + left. unfold isConnected. now rewrite Hs'.
    - destruct (polling_is_interval w tick Hp) as [wallet [Hw _]]. congruence. }
  intros s Hn. subst s.
  destruct (G (Session.started answer)) as [H | H].
  - right. cbn. repeat split. constructor.
  - congruence.
  - exact H.
Qed.

(** B is announced, its button is clicked and the user turns the request
    down; the timer fires. *)
Lemma session_asks_only_for_accounts_until_connected_witness :
  let s := Session.run stringify [Session.Click 0; Session.Tick; Session.Click 1]
             (Session.started [announce walletB]) in
  isConnected (snd s) = false /\
  calls (snd s) = [{| target := 2; sent := accountsRequest |}] /\
  Forall (fun c => sent c = accountsRequest) (calls (snd s)).
Proof.
  cbv zeta.
  assert (H : isConnected
                (snd (Session.run stringify
                        [Session.Click 0; Session.Tick; Session.Click 1]
                        (Session.started [announce walletB]))) = false)
    by reflexivity.
  split; [exact H |]. split; [reflexivity |].
  exact (proj2 (proj2 (session_asks_only_for_accounts_until_connected stringify
                         [announce walletB]
                         [Session.Click 0; Session.Tick; Session.Click 1] H))).
Defined.



(** * The Ledger bootstrap of App.tsx *)

(** X19. The cleanup function of the Ledger provider is called on unmount
    only if the imports had settled before: when the library has started and
    the component unmounts afterwards, the cleanup function it returned is
    called once; when the component unmounts first, the library is started
    with the same configuration all the same, after the unmount, and its
    cleanup function is kept but not called. *)
Theorem ledger_cleanup_needs_settled_imports :
  forall (lib : Bootstrap.Library) (init : Bootstrap.LedgerConfig -> Settled nat)
         (f : nat),
    Bootstrap.styles lib = Fulfilled tt ->
    Bootstrap.initializeLedgerProvider lib = Fulfilled init ->
    init Bootstrap.config = Fulfilled f ->
    let in_order := Bootstrap.unmount (Bootstrap.settle lib Bootstrap.mounted) in
    let too_early := Bootstrap.settle lib (Bootstrap.unmount Bootstrap.mounted) in
    Bootstrap.initialized in_order = [Bootstrap.config] /\
    Bootstrap.cleaned in_order = [f] /\
    Bootstrap.initialized too_early = [Bootstrap.config] /\
    Bootstrap.cleanup too_early = Some f /\
    Bootstrap.cleaned too_early = [].
Proof.
  intros lib init f Hs Hi Hf in_order too_early.
  subst in_order too_early.
  unfold Bootstrap.settle, Bootstrap.initializeProvider, Bootstrap.unmount.
  rewrite Hs, Hi, Hf. cbn. repeat split.
Qed.

Lemma ledger_cleanup_needs_settled_imports_witness :
  Bootstrap.styles ledger = Fulfilled tt /\
  Bootstrap.cleaned
    (Bootstrap.unmount (Bootstrap.settle ledger Bootstrap.mounted)) = [5] /\
  Bootstrap.cleaned
    (Bootstrap.settle ledger (Bootstrap.unmount Bootstrap.mounted)) = [].
Proof.
  assert (Hs : Bootstrap.styles ledger = Fulfilled tt) by reflexivity.
  split; [exact Hs |].
  destruct (ledger_cleanup_needs_settled_imports ledger
              (fun _ => Fulfilled 5) 5 Hs eq_refl eq_refl)
    as [_ [H1 [_ [_ H2]]]].
  split; [exact H1 | exact H2].
Defined.

(** X20. When the import of the style sheet or of the library is rejected,
    or [initializeLedgerProvider] throws, no cleanup function is stored, the
    rejection is handled by nobody, and unmounting does nothing; in the two
    import cases the library is not started at all. *)
Theorem ledger_failure_is_unhandled :
  forall (lib : Bootstrap.Library) (reason : JsValue),
    fst (Bootstrap.initializeProvider lib) = Rejected reason ->
    Bootstrap.cleanup (Bootstrap.settle lib Bootstrap.mounted) = None /\
    Bootstrap.unhandled (Bootstrap.settle lib Bootstrap.mounted) = [reason] /\
    Bootstrap.unmount (Bootstrap.settle lib Bootstrap.mounted) =
      Bootstrap.settle lib Bootstrap.mounted /\
    ((Bootstrap.styles lib = Rejected reason \/
      Bootstrap.initializeLedgerProvider lib = Rejected reason) ->
     Bootstrap.initialized (Bootstrap.settle lib Bootstrap.mounted) = []).
Proof.
  intros lib reason H. unfold Bootstrap.settle.
  destruct (Bootstrap.initializeProvider lib) as [[f | r] started] eqn:E;
    cbn in H; [discriminate |].
  injection H as ->. cbn. repeat split.
  intros Hr. unfold Bootstrap.initializeProvider in E.
  destruct (Bootstrap.styles lib) as [u | r1]; [| now inversion E].
  destruct Hr as [Hr | Hr]; [discriminate |].
  rewrite Hr in E. now inversion E.
Qed.

Lemma ledger_failure_is_unhandled_witness :
  fst (Bootstrap.initializeProvider ledger_without_styles) =
    Rejected (VStr "Failed to fetch dynamically imported module") /\
  Bootstrap.cleanup (Bootstrap.settle ledger_without_styles Bootstrap.mounted)
    = None /\
  Bootstrap.unhandled (Bootstrap.settle ledger_without_styles Bootstrap.mounted)
    = [VStr "Failed to fetch dynamically imported module"].
Proof.
  assert (H : fst (Bootstrap.initializeProvider ledger_without_styles) =
              Rejected (VStr "Failed to fetch dynamically imported module"))
    by reflexivity.
  split; [exact H |].
  destruct (ledger_failure_is_unhandled ledger_without_styles _ H) as [H1 [H2 _]].
  split; [exact H1 | exact H2].
Defined.
